(** * SIREN backend: serial-line ingestion and the shared reading

    A shallow embedding of [backend/app.py]: the module-level start-up
    (opening the serial port), the reader loop [read_serial] and the
    accessor [get_data], together with the built-ins the loop calls
    ([str.strip], [str.split], [int], [float]).

    Conventions.
    - A Python [str] is a [string]; each character is a code point
      below 256.
    - A Python [int] is a [Z]; a Python [float] is a binary64 value,
      represented by [spec_float] (sign, mantissa, exponent, with the
      two zeros, the infinities and NaN).
    - A [dict] with string keys is a [gmap string pyval].
    - The serial device and the clock are the environment: what the
      device answers in one loop iteration is a [poll], [print] appends
      to [stdout], [time.sleep] appends to [slept]; both are taken to
      succeed.
    - [history] lists the assignments made to [latest_data]. *)

From Stdlib Require Import ZArith NArith Ascii String List.
From Stdlib Require Import Floats.SpecFloat.
From stdpp Require Import base option list strings gmap.

Local Open Scope Z_scope.
Local Open Scope string_scope.

(** ** Python values *)

Module Py.

Inductive pyval :=
| PyInt (z : Z)
| PyFloat (f : spec_float).

(** Exceptions derived from [Exception] that can reach the loop's
    handler. [ValueError] carries the name of the failing built-in and
    its argument. *)
Inductive exn :=
| ValueError (builtin : string) (arg : string)
| IndexError
| UnicodeDecodeError
| SerialException (msg : string)
| OtherException (name : string).

(** [math.isfinite] on a float. *)
Definition isfinite (f : spec_float) : bool :=
  match f with
  | S754_zero _ | S754_finite _ _ _ => true
  | S754_infinity _ | S754_nan => false
  end.

(** *** Characters *)

Definition code (c : ascii) : N := N_of_ascii c.

(** [str.isspace] for one character, as [str.strip] uses it: the
    C0 separators 0x1C-0x1F count as whitespace there. *)
Definition unicode_isspace (c : ascii) : bool :=
  let n := code c in
  ((9 <=? n) && (n <=? 13) || (28 <=? n) && (n <=? 32)
   || (n =? 133) || (n =? 160))%N.

(** Whitespace of the interpreter's byte classifier, the one [int] and
    [float] strip with: tab, LF, VT, FF, CR and space. *)
Definition c_isspace (c : ascii) : bool :=
  let n := code c in
  ((9 <=? n) && (n <=? 13) || (n =? 32))%N.

Definition is_digit (c : ascii) : bool :=
  let n := code c in ((48 <=? n) && (n <=? 57))%N.

Definition digit_value (c : ascii) : Z := Z.of_N (code c) - 48.

Definition tolower (c : ascii) : ascii :=
  let n := code c in
  if ((65 <=? n) && (n <=? 90))%N then ascii_of_N (n + 32) else c.

(** *** [str.strip()] and [str.split(sep)] *)

Fixpoint lstrip_with (sp : ascii -> bool) (s : string) : string :=
  match s with
  | String c s' => if sp c then lstrip_with sp s' else s
  | EmptyString => EmptyString
  end.

Fixpoint rstrip_with (sp : ascii -> bool) (s : string) : string :=
  match s with
  | EmptyString => EmptyString
  | String c s' =>
      match rstrip_with sp s' with
      | EmptyString => if sp c then EmptyString else String c EmptyString
      | t => String c t
      end
  end.

Definition strip_with (sp : ascii -> bool) (s : string) : string :=
  rstrip_with sp (lstrip_with sp s).

Definition strip (s : string) : string := strip_with unicode_isspace s.

(** [s.split(sep)] for a one-character separator: every occurrence
    separates, so the result has one more token than [s] has
    separators and is never empty. *)
Fixpoint split (sep : ascii) (s : string) : list string :=
  match s with
  | EmptyString => [EmptyString]
  | String c s' =>
      if Ascii.eqb c sep then EmptyString :: split sep s'
      else match split sep s' with
           | t :: ts => String c t :: ts
           | [] => [String c EmptyString]
           end
  end.

(** *** Numeric literals *)

(** Before parsing, [int] and [float] replace every non-ASCII
    whitespace character by a space; any other character from 127 up
    that is not a decimal digit makes the literal invalid (below 256
    there is no such digit). *)
Definition to_ascii_char (c : ascii) : option ascii :=
  if (code c <? 127)%N then Some c
  else if unicode_isspace c then Some " "%char
  else None.

Fixpoint to_ascii (s : string) : option string :=
  match s with
  | EmptyString => Some EmptyString
  | String c s' =>
      match to_ascii_char c, to_ascii s' with
      | Some c', Some t => Some (String c' t)
      | _, _ => None
      end
  end.

(** A run of digits in which single underscores may separate digits:
    [digit (["_"] digit)*]. Returns the digits with the underscores
    removed. [prev_digit] tells whether the previous character was a
    digit. *)
Fixpoint digitpart_from (prev_digit : bool) (s : list ascii) : option (list ascii) :=
  match s with
  | [] => if prev_digit then Some [] else None
  | c :: s' =>
      if is_digit c then
        match digitpart_from true s' with
        | Some ds => Some (c :: ds)
        | None => None
        end
      else if Ascii.eqb c "_" then
        if prev_digit then digitpart_from false s' else None
      else None
  end.

Definition digitpart (s : list ascii) : option (list ascii) :=
  digitpart_from false s.

Definition decimal_value (ds : list ascii) : Z :=
  fold_left (fun acc c => 10 * acc + digit_value c) ds 0.

Definition split_sign (s : list ascii) : bool * list ascii :=
  match s with
  | c :: s' =>
      if Ascii.eqb c "-" then (true, s')
      else if Ascii.eqb c "+" then (false, s')
      else (false, s)
  | [] => (false, [])
  end.

(** The interpreter's default limit on the number of digits of a
    decimal integer literal converted from a string. *)
Definition int_max_str_digits : nat := 4300.

(** [int(s)] in base 10: optional surrounding whitespace, an optional
    sign, then a [digitpart]. [inr] is the value, [inl] the
    [ValueError]. *)
Definition py_int (s : string) : exn + Z :=
  let bad := inl (ValueError "int" s) in
  match to_ascii s with
  | None => bad
  | Some t =>
      let '(neg, body) := split_sign (list_ascii_of_string (strip_with c_isspace t)) in
      match digitpart body with
      | Some ds =>
          if (int_max_str_digits <? length ds)%nat then bad
          else inr (if neg then - decimal_value ds else decimal_value ds)
      | None => bad
      end
  end.

(** Binary64: 53 bits of precision, exponents below 1024. *)
Definition prec : Z := 53.
Definition emax : Z := 1024.

(** The binary64 value nearest to [m * 10^e10] (ties to even), with
    sign [neg]; too large a magnitude gives an infinity, too small a
    one a zero. *)
Definition float_of_decimal (neg : bool) (m e10 : Z) : spec_float :=
  if Z.eqb m 0 then S754_zero neg
  else
    let num := m * 10 ^ Z.max e10 0 in
    let den := 10 ^ Z.max (- e10) 0 in
    let '(q, e, l) := SFdiv_core_binary prec emax num 0 den 0 in
    binary_round_aux prec emax neg q e l.

(** [float] accepts underscores only directly between two digits and
    drops them before reading the number. [prev] is the previous
    character. *)
Fixpoint drop_underscores (prev : option ascii) (s : list ascii) : option (list ascii) :=
  match s with
  | [] =>
      match prev with
      | Some p => if Ascii.eqb p "_" then None else Some []
      | None => Some []
      end
  | c :: s' =>
      let prev_is (f : ascii -> bool) :=
        match prev with Some p => f p | None => false end in
      if Ascii.eqb c "_" then
        if prev_is is_digit then drop_underscores (Some c) s' else None
      else if prev_is (fun p => Ascii.eqb p "_") && negb (is_digit c) then None
      else match drop_underscores (Some c) s' with
           | Some t => Some (c :: t)
           | None => None
           end
  end.

(** The longest prefix of digits, and the rest. *)
Fixpoint take_digits (s : list ascii) : list ascii * list ascii :=
  match s with
  | c :: s' =>
      if is_digit c then let '(ds, r) := take_digits s' in (c :: ds, r)
      else ([], s)
  | [] => ([], [])
  end.

(** The exponent part, [("e" | "E") [sign] digit+], or nothing; it
    must reach the end of the literal. *)
Definition exponent (s : list ascii) : option Z :=
  match s with
  | [] => Some 0
  | c :: s' =>
      if Ascii.eqb (tolower c) "e" then
        let '(neg, body) := split_sign s' in
        match take_digits body with
        | ((_ :: _) as ds, []) =>
            Some (if neg then - decimal_value ds else decimal_value ds)
        | _ => None
        end
      else None
  end.

(** An unsigned decimal literal: digits with an optional point and an
    optional exponent, at least one digit before the exponent. Gives
    the mantissa [m] and the decimal exponent [e10] of the value
    [m * 10^e10]. *)
Definition decimal_literal (s : list ascii) : option (Z * Z) :=
  let '(ip, r) := take_digits s in
  let '(fp, r') :=
    match r with
    | c :: r1 => if Ascii.eqb c "." then take_digits r1 else ([], r)
    | [] => ([], [])
    end in
  match (ip ++ fp)%list with
  | [] => None
  | ds =>
      match exponent r' with
      | Some e => Some (decimal_value ds, e - Z.of_nat (length fp))
      | None => None
      end
  end.

Fixpoint string_forall (f : ascii -> bool) (s : string) : bool :=
  match s with
  | EmptyString => true
  | String c s' => f c && string_forall f s'
  end.

Definition starts_with_digit (s : string) : bool :=
  match s with
  | String c _ => is_digit c
  | EmptyString => false
  end.

Definition lower (s : list ascii) : string :=
  string_of_list_ascii (map tolower s).

(** A float literal without its sign: [inf], [infinity] or [nan] in
    any letter case, or a decimal literal. *)
Definition absfloatvalue (neg : bool) (body : list ascii) : option spec_float :=
  let word := lower body in
  if String.eqb word "inf" || String.eqb word "infinity" then
    Some (S754_infinity neg)
  else if String.eqb word "nan" then Some S754_nan
  else
    match decimal_literal body with
    | Some (m, e10) => Some (float_of_decimal neg m e10)
    | None => None
    end.

(** [float(s)]: optional surrounding whitespace, an optional sign, then
    an [absfloatvalue]. [inr] is the value, [inl] the [ValueError]. *)
Definition py_float (s : string) : exn + spec_float :=
  let bad := inl (ValueError "float" s) in
  match to_ascii s with
  | None => bad
  | Some t =>
      match drop_underscores None (list_ascii_of_string (strip_with c_isspace t)) with
      | None => bad
      | Some u =>
          let '(neg, body) := split_sign u in
          match absfloatvalue neg body with
          | Some f => inr f
          | None => bad
          end
      end
  end.

(** *** Vocabulary for statements about the built-ins *)

(** [s.count(c)] for a one-character [c]. *)
Fixpoint count_char (c : ascii) (s : string) : nat :=
  match s with
  | EmptyString => 0%nat
  | String d s' => ((if Ascii.eqb d c then 1 else 0) + count_char c s')%nat
  end.

(** [sep.join(parts)] for a one-character separator. *)
Fixpoint join (sep : ascii) (parts : list string) : string :=
  match parts with
  | [] => EmptyString
  | [t] => t
  | t :: ts => t ++ String sep (join sep ts)
  end.

(** The characters an integer literal can contain: digits, the
    underscore, the signs, and the whitespace [int] strips. *)
Definition int_char (c : ascii) : bool :=
  is_digit c || Ascii.eqb c "_" || Ascii.eqb c "+" || Ascii.eqb c "-"
  || c_isspace c || (code c =? 133)%N || (code c =? 160)%N.

(** The characters of a plain decimal number: a digit or the point. *)
Definition plain_char (c : ascii) : bool := is_digit c || Ascii.eqb c ".".

(** The characters of an unsigned decimal literal with its exponent. *)
Definition literal_char (c : ascii) : bool :=
  plain_char c || Ascii.eqb (tolower c) "e" || Ascii.eqb c "+" || Ascii.eqb c "-".

(** Neither [n] nor [N]. *)
Definition not_n (c : ascii) : bool := negb (Ascii.eqb (tolower c) "n").

End Py.

(** ** The application: [backend/app.py] *)

Module App.
Import Py.

(** The handle [serial.Serial(port, baudrate, timeout=...)] returns. *)
Record Serial := { port : string; baudrate : Z; timeout : Z }.

(** What [print] writes, one entry per call. *)
Inductive output :=
| Received (line : string)
| Parsed (d : gmap string pyval)
| SerialError (e : exn).

(** The process state: the module globals [ser] and [latest_data],
    the lines printed so far and the [time.sleep] calls made so far
    (in seconds, oldest first). [history] has no counterpart in the
    source: it records every mapping an assignment has bound
    [latest_data] to, oldest first, so that statements can speak of the
    values the global takes on the way and not only of the last one. *)
Record world := {
  ser : option Serial;
  latest_data : gmap string pyval;
  stdout : list output;
  slept : list Z;
  history : list (gmap string pyval)
}.

(** What the device answers during one loop iteration: the value of
    [ser.in_waiting], and the value of [ser.readline().decode()] should
    the loop ask for it. Either may raise instead ([inl]): the port is
    gone, the read fails, the bytes are not valid text. *)
Record poll := {
  in_waiting : exn + N;
  readline_decode : exn + string
}.

(** Statements run in a world and either complete with a value or
    raise; what they changed before raising stays changed. *)
Definition M (A : Type) : Type := world -> (exn + A) * world.

Definition ret {A} (a : A) : M A := fun w => (inr a, w).

Definition bind {A B} (m : M A) (k : A -> M B) : M B :=
  fun w =>
    match m w with
    | (inr a, w') => k a w'
    | (inl e, w') => (inl e, w')
    end.

Definition call {A} (r : exn + A) : M A := fun w => (r, w).

(** [try: m  except Exception as e: h e] *)
Definition try_except {A} (m : M A) (h : exn -> M A) : M A :=
  fun w =>
    match m w with
    | (inl e, w') => h e w'
    | r => r
    end.

Declare Scope py_scope.
Delimit Scope py_scope with py.
Notation "x <- m ;; k" := (bind m (fun x => k))
  (at level 20, m at level 99, k at level 200, only parsing) : py_scope.
Notation "m ;; k" := (bind m (fun _ => k))
  (at level 100, k at level 200, only parsing, right associativity) : py_scope.
Local Open Scope py_scope.

(** [print] and [time.sleep] are taken to succeed: standard output is
    writable and nothing interrupts the sleep. *)
Definition print (o : output) : M unit :=
  fun w => (inr tt,
            {| ser := ser w; latest_data := latest_data w;
               stdout := (stdout w ++ [o])%list; slept := slept w;
               history := history w |}).

Definition sleep (secs : Z) : M unit :=
  fun w => (inr tt,
            {| ser := ser w; latest_data := latest_data w;
               stdout := stdout w; slept := (slept w ++ [secs])%list;
               history := history w |}).

Definition set_ser (s : option Serial) : M unit :=
  fun w => (inr tt,
            {| ser := s; latest_data := latest_data w;
               stdout := stdout w; slept := slept w; history := history w |}).

(** The assignment [latest_data = d]: it rebinds the global to [d]. *)
Definition set_latest_data (d : gmap string pyval) : M unit :=
  fun w => (inr tt,
            {| ser := ser w; latest_data := d;
               stdout := stdout w; slept := slept w;
               history := (history w ++ [d])%list |}).

Definition get_latest_data : M (gmap string pyval) :=
  fun w => (inr (latest_data w), w).

Definition get_ser : M (option Serial) := fun w => (inr (ser w), w).

(** [parts[i]] *)
Definition item (parts : list string) (i : nat) : M string :=
  match parts !! i with
  | Some t => ret t
  | None => call (inl IndexError)
  end.

(** A dict display [{k1: v1, ...}]: keys are inserted left to right. *)
Definition dict_display (items : list (string * pyval)) : gmap string pyval :=
  fold_left (fun d kv => <[kv.1 := kv.2]> d) items ∅.

Definition exec {A} (m : M A) (w : world) : world := snd (m w).
Definition result {A} (m : M A) (w : world) : exn + A := fst (m w).

(** *** Module start-up (lines 12-25) *)

(** [opening] is what the operating system answers to the attempt to
    open the port: [None] when it opens, the exception otherwise. *)
Definition serial_Serial (opening : option exn) (p : string) (b t : Z) : M Serial :=
  match opening with
  | None => ret {| port := p; baudrate := b; timeout := t |}
  | Some e => call (inl e)
  end.

Definition module_body (environ : gmap string string) (opening : option exn) : M unit :=
  (if bool_decide (environ !! "WERKZEUG_RUN_MAIN" = Some "true") then
     s <- serial_Serial opening "/dev/cu.usbmodem2101" 115200 1 ;;
     set_ser (Some s) ;;
     sleep 2
   else
     set_ser None) ;;
  set_latest_data
    (dict_display [("angle", PyInt 0); ("distance", PyInt 0);
                   ("humidity", PyInt 0); ("temperatureC", PyInt 0);
                   ("temperatureF", PyInt 0)]).

(** The state before the module body runs: nothing bound yet. *)
Definition blank : world :=
  {| ser := None; latest_data := ∅; stdout := []; slept := [];
     history := [] |}.

(** *** [read_serial] (lines 27-48) *)

(** The body of the [try] block, lines 33-45. *)
Definition try_block (p : poll) : M unit :=
  n <- call (in_waiting p) ;;
  if negb (n =? 0)%N then
    raw <- call (readline_decode p) ;;
    let line := strip raw in
    print (Received line) ;;
    let parts := split "," line in
    if (length parts =? 5)%nat then
      p0 <- item parts 0 ;; angle <- call (py_int p0) ;;
      p1 <- item parts 1 ;; distance <- call (py_float p1) ;;
      p2 <- item parts 2 ;; humidity <- call (py_float p2) ;;
      p3 <- item parts 3 ;; temperatureC <- call (py_float p3) ;;
      p4 <- item parts 4 ;; temperatureF <- call (py_float p4) ;;
      set_latest_data
        (dict_display [("angle", PyInt angle);
                       ("distance", PyFloat distance);
                       ("humidity", PyFloat humidity);
                       ("temperatureC", PyFloat temperatureC);
                       ("temperatureF", PyFloat temperatureF)]) ;;
      d <- get_latest_data ;;
      print (Parsed d)
    else ret tt
  else ret tt.

(** One pass through the [while True] body, lines 32-48. *)
Definition iteration (p : poll) : M unit :=
  try_except (try_block p)
    (fun e => print (SerialError e) ;; sleep 1).

(** The loop, run against the device's answers for its first
    [length script] iterations. *)
Fixpoint loop (script : list poll) : M unit :=
  match script with
  | [] => ret tt
  | p :: ps => iteration p ;; loop ps
  end.

(** [read_serial]: returns at once when [ser] is [None], loops
    otherwise. *)
Definition read_serial (script : list poll) : M unit :=
  s <- get_ser ;;
  match s with
  | None => ret tt
  | Some _ => loop script
  end.

(** *** [get_data] (lines 54-56): the body of the [/data] response. *)
Definition get_data : M (gmap string pyval) :=
  d <- get_latest_data ;;
  ret d.

(** *** Vocabulary for the statements *)

(** The tokens the loop looks at for a received line. *)
Definition tokens (raw : string) : list string := split "," (strip raw).

Definition raised {A} (r : exn + A) : bool :=
  match r with inl _ => true | inr _ => false end.

(** A line of five tokens of which at least one is not a literal of
    its field's type. *)
Definition parse_fails (parts : list string) : bool :=
  match parts with
  | [t0; t1; t2; t3; t4] =>
      raised (py_int t0) || raised (py_float t1) || raised (py_float t2)
      || raised (py_float t3) || raised (py_float t4)
  | _ => false
  end.

(** The exception the five conversions raise, if any: that of the
    first one that fails, in field order. *)
Definition first_error (parts : list string) : option exn :=
  match parts with
  | [t0; t1; t2; t3; t4] =>
      match py_int t0, py_float t1, py_float t2, py_float t3, py_float t4 with
      | inl e, _, _, _, _
      | inr _, inl e, _, _, _
      | inr _, inr _, inl e, _, _
      | inr _, inr _, inr _, inl e, _
      | inr _, inr _, inr _, inr _, inl e => Some e
      | inr _, inr _, inr _, inr _, inr _ => None
      end
  | _ => None
  end.

(** The five-key mapping with the given values. *)
Definition reading (angle distance humidity temperatureC temperatureF : pyval)
  : gmap string pyval :=
  dict_display [("angle", angle); ("distance", distance);
                ("humidity", humidity); ("temperatureC", temperatureC);
                ("temperatureF", temperatureF)].

Definition zero_reading : gmap string pyval :=
  reading (PyInt 0) (PyInt 0) (PyInt 0) (PyInt 0) (PyInt 0).

Definition field_names : gset string :=
  {[ "angle"; "distance"; "humidity"; "temperatureC"; "temperatureF" ]}.

(** The Reading of the data model: it exists only for exactly five
    tokens that all parse, the first as an integer and the others as
    floats. *)
Definition validated_reading (parts : list string) : option (gmap string pyval) :=
  match parts with
  | [t0; t1; t2; t3; t4] =>
      match py_int t0, py_float t1, py_float t2, py_float t3, py_float t4 with
      | inr a, inr d, inr h, inr c, inr f =>
          Some (reading (PyInt a) (PyFloat d) (PyFloat h) (PyFloat c) (PyFloat f))
      | _, _, _, _, _ => None
      end
  | _ => None
  end.

(** The Reading an iteration has to publish, if any, given what the
    device answers. *)
Definition reading_of (p : poll) : option (gmap string pyval) :=
  match in_waiting p, readline_decode p with
  | inr n, inr raw => if (n =? 0)%N then None else validated_reading (tokens raw)
  | _, _ => None
  end.

(** The device has data and hands over the line [raw]. *)
Definition line (raw : string) : poll :=
  {| in_waiting := inr (N.of_nat (String.length raw)); readline_decode := inr raw |}.

Definition is_Parsed (o : output) : bool :=
  match o with Parsed _ => true | _ => false end.

(** Whether the loop has stored a reading so far: it prints [Parsed]
    right after each store and at no other place. *)
Definition published (w : world) : bool := existsb is_Parsed (stdout w).

(** The world after one more [print] or [time.sleep]. *)
Definition logged (o : output) (w : world) : world := exec (print o) w.
Definition paused (secs : Z) (w : world) : world := exec (sleep secs) w.
Definition stored (d : gmap string pyval) (w : world) : world :=
  exec (set_latest_data d) w.

(** The states of the process: the one the module body leaves, and
    those after further iterations of the reader loop, which runs only
    when [ser] is set. *)
Inductive reachable : world -> Prop :=
| reachable_start environ opening w :
    module_body environ opening blank = (inr tt, w) -> reachable w
| reachable_step p w :
    reachable w -> ser w <> None -> reachable (exec (iteration p) w).

(** The five ways one pass through the loop body can go, with the
    world it leaves. *)
Inductive outcome (p : poll) (w : world) : world -> Prop :=
| outcome_no_data :
    in_waiting p = inr 0%N ->
    outcome p w w
| outcome_device_error e :
    in_waiting p = inl e
    \/ (exists n, in_waiting p = inr n /\ n <> 0%N /\ readline_decode p = inl e) ->
    outcome p w (paused 1 (logged (SerialError e) w))
| outcome_wrong_count n raw :
    in_waiting p = inr n -> n <> 0%N -> readline_decode p = inr raw ->
    length (tokens raw) <> 5%nat ->
    outcome p w (logged (Received (strip raw)) w)
| outcome_parse_error n raw e :
    in_waiting p = inr n -> n <> 0%N -> readline_decode p = inr raw ->
    first_error (tokens raw) = Some e ->
    outcome p w (paused 1 (logged (SerialError e) (logged (Received (strip raw)) w)))
| outcome_published n raw t0 t1 t2 t3 t4 a d h c f :
    in_waiting p = inr n -> n <> 0%N -> readline_decode p = inr raw ->
    tokens raw = [t0; t1; t2; t3; t4] ->
    py_int t0 = inr a -> py_float t1 = inr d -> py_float t2 = inr h ->
    py_float t3 = inr c -> py_float t4 = inr f ->
    let r := reading (PyInt a) (PyFloat d) (PyFloat h) (PyFloat c) (PyFloat f) in
    outcome p w (logged (Parsed r) (stored r (logged (Received (strip raw)) w))).

(** The shape of the snapshot: all zeros until the first store, an
    integer and four floats from then on. *)
Definition well_shaped (w : world) : Prop :=
  if published w
  then exists a d h c f,
      latest_data w
      = reading (PyInt a) (PyFloat d) (PyFloat h) (PyFloat c) (PyFloat f)
  else latest_data w = zero_reading.

(** A mapping that is whole: the zero mapping of start-up, or the
    five values parsed from one line. *)
Definition whole (m : gmap string pyval) : Prop :=
  m = zero_reading
  \/ exists a d h c f,
      m = reading (PyInt a) (PyFloat d) (PyFloat h) (PyFloat c) (PyFloat f).

(** The environment of the development server's worker process, and
    the world its module body leaves when the port opens. *)
Definition worker_environ : gmap string string :=
  {[ "WERKZEUG_RUN_MAIN" := "true" ]}.

Definition started : world := exec (module_body worker_environ None) blank.

(** *** The entry point (lines 58-61) *)

(** The [__main__] block starts [read_serial] on a daemon thread in the
    worker process only, then runs the web server. Of the two, only the
    reader writes to the world; the server calls [get_data]. [main] is
    what the block does to the world: the reader's run against the
    device's answers. *)
Definition main (environ : gmap string string) (script : list poll) : M unit :=
  if bool_decide (environ !! "WERKZEUG_RUN_MAIN" = Some "true") then
    read_serial script
  else ret tt.

(** Running the file: the module body, then the [__main__] block. *)
Definition program (environ : gmap string string) (opening : option exn)
    (script : list poll) : M unit :=
  module_body environ opening ;;
  main environ script.

(** *** More vocabulary *)

(** An iteration that ends in the handler: the device raises, or a line
    of five tokens does not parse. *)
Definition failing (p : poll) : bool :=
  match in_waiting p with
  | inl _ => true
  | inr n =>
      if (n =? 0)%N then false
      else match readline_decode p with
           | inl _ => true
           | inr raw => parse_fails (tokens raw)
           end
  end.

(** The mapping of the last [Parsed] line printed, if any. *)
Definition last_parsed (out : list output) : option (gmap string pyval) :=
  fold_left (fun acc o => match o with Parsed d => Some d | _ => acc end) out None.

(** The handle the module opens. *)
Definition the_port : Serial :=
  {| port := "/dev/cu.usbmodem2101"; baudrate := 115200; timeout := 1 |}.

End App.

(** ** Properties *)

Import Py App.
Local Open Scope py_scope.

(** *** What one iteration does, case by case *)

Section Iteration.
Variables (p : poll) (w : world).

Lemma iteration_no_data :
  in_waiting p = inr 0%N -> iteration p w = (inr tt, w).
Proof.
  intros H. unfold iteration, try_except, try_block, bind, call.
  rewrite H. reflexivity.
Qed.

Lemma iteration_in_waiting_raises e :
  in_waiting p = inl e ->
  iteration p w = (inr tt, paused 1 (logged (SerialError e) w)).
Proof.
  intros H. unfold iteration, try_except, try_block, bind, call.
  rewrite H. reflexivity.
Qed.

Lemma iteration_read_raises n e :
  in_waiting p = inr n -> n <> 0%N -> readline_decode p = inl e ->
  iteration p w = (inr tt, paused 1 (logged (SerialError e) w)).
Proof.
  intros H Hn Hr. unfold iteration, try_except, try_block, bind, call.
  rewrite H. apply N.eqb_neq in Hn. rewrite Hn, Hr. reflexivity.
Qed.

Lemma iteration_wrong_count n raw :
  in_waiting p = inr n -> n <> 0%N -> readline_decode p = inr raw ->
  length (tokens raw) <> 5%nat ->
  iteration p w = (inr tt, logged (Received (strip raw)) w).
Proof.
  intros H Hn Hr Hlen. unfold iteration, try_except, try_block, bind, call.
  rewrite H. apply N.eqb_neq in Hn. rewrite Hn, Hr. simpl.
  apply Nat.eqb_neq in Hlen. unfold tokens in Hlen. rewrite Hlen.
  reflexivity.
Qed.

Lemma iteration_publishes n raw t0 t1 t2 t3 t4 a d h c f :
  in_waiting p = inr n -> n <> 0%N -> readline_decode p = inr raw ->
  tokens raw = [t0; t1; t2; t3; t4] ->
  py_int t0 = inr a -> py_float t1 = inr d -> py_float t2 = inr h ->
  py_float t3 = inr c -> py_float t4 = inr f ->
  let r := reading (PyInt a) (PyFloat d) (PyFloat h) (PyFloat c) (PyFloat f) in
  iteration p w
  = (inr tt, logged (Parsed r) (stored r (logged (Received (strip raw)) w))).
Proof.
  intros H Hn Hr Htok H0 H1 H2 H3 H4.
  unfold iteration, try_except, try_block, bind, call.
  rewrite H. apply N.eqb_neq in Hn. rewrite Hn, Hr. simpl.
  unfold tokens in Htok. rewrite Htok. simpl.
  rewrite H0, H1, H2, H3, H4. reflexivity.
Qed.

Lemma iteration_first_error n raw e :
  in_waiting p = inr n -> n <> 0%N -> readline_decode p = inr raw ->
  first_error (tokens raw) = Some e ->
  iteration p w
  = (inr tt, paused 1 (logged (SerialError e) (logged (Received (strip raw)) w))).
Proof.
  intros H Hn Hr Hfail.
  unfold iteration, try_except, try_block, bind, call.
  rewrite H. apply N.eqb_neq in Hn. rewrite Hn, Hr. simpl.
  unfold tokens in Hfail.
  destruct (split "," (strip raw)) as [|t0 [|t1 [|t2 [|t3 [|t4 [|t5 ts]]]]]];
    try discriminate Hfail.
  simpl in *.
  destruct (py_int t0) as [e0|a]; [injection Hfail as ->; reflexivity|].
  destruct (py_float t1) as [e1|d]; [injection Hfail as ->; reflexivity|].
  destruct (py_float t2) as [e2|h]; [injection Hfail as ->; reflexivity|].
  destruct (py_float t3) as [e3|c]; [injection Hfail as ->; reflexivity|].
  destruct (py_float t4) as [e4|f]; [injection Hfail as ->; reflexivity|].
  discriminate Hfail.
Qed.

Lemma parse_fails_first_error parts :
  parse_fails parts = true <-> exists e, first_error parts = Some e.
Proof.
  destruct parts as [|t0 [|t1 [|t2 [|t3 [|t4 [|t5 ts]]]]]]; simpl;
    try (split; [discriminate | intros [e He]; discriminate He]).
  destruct (py_int t0), (py_float t1), (py_float t2), (py_float t3),
    (py_float t4); simpl;
    solve [split; eauto | split; [discriminate | intros [e He]; discriminate He]].
Qed.

Lemma iteration_parse_fails n raw :
  in_waiting p = inr n -> n <> 0%N -> readline_decode p = inr raw ->
  parse_fails (tokens raw) = true ->
  exists e,
    first_error (tokens raw) = Some e
    /\ iteration p w
       = (inr tt, paused 1 (logged (SerialError e) (logged (Received (strip raw)) w))).
Proof.
  intros H Hn Hr Hfail.
  apply parse_fails_first_error in Hfail as [e He].
  exists e. split; [exact He|]. apply (iteration_first_error n raw e H Hn Hr He).
Qed.

End Iteration.

(** Every pass completes, in one of the five ways. *)
Lemma iteration_outcome p w :
  exists w', iteration p w = (inr tt, w') /\ outcome p w w'.
Proof.
  destruct (in_waiting p) as [e|n] eqn:H.
  { eexists. split; [apply (iteration_in_waiting_raises p w e H)|].
    constructor. left. exact H. }
  destruct (N.eqb_spec n 0) as [->|Hn].
  { eexists. split; [apply (iteration_no_data p w H)|]. constructor. exact H. }
  destruct (readline_decode p) as [e|raw] eqn:Hr.
  { eexists. split; [apply (iteration_read_raises p w n e H Hn Hr)|].
    constructor. right. eauto. }
  destruct (Nat.eq_dec (length (tokens raw)) 5%nat) as [Hlen|Hlen].
  - destruct (parse_fails (tokens raw)) eqn:Hf.
    + destruct (iteration_parse_fails p w n raw H Hn Hr Hf) as (e & Hfe & He).
      eexists. split; [exact He|]. econstructor; eauto.
    + destruct (tokens raw) as [|t0 [|t1 [|t2 [|t3 [|t4 [|t5 ts]]]]]] eqn:Htok;
        try discriminate Hlen.
      simpl in Hf.
      destruct (py_int t0) as [|a] eqn:H0; [discriminate Hf|].
      destruct (py_float t1) as [|d] eqn:H1; [discriminate Hf|].
      destruct (py_float t2) as [|h] eqn:H2; [discriminate Hf|].
      destruct (py_float t3) as [|c] eqn:H3; [discriminate Hf|].
      destruct (py_float t4) as [|f] eqn:H4; [discriminate Hf|].
      eexists. split.
      * apply (iteration_publishes p w n raw _ _ _ _ _ _ _ _ _ _
                 H Hn Hr Htok H0 H1 H2 H3 H4).
      * eapply outcome_published; eauto.
  - eexists. split; [apply (iteration_wrong_count p w n raw H Hn Hr Hlen)|].
    econstructor; eauto.
Qed.

Lemma iteration_returns p w : iteration p w = (inr tt, exec (iteration p) w).
Proof.
  destruct (iteration_outcome p w) as (w' & He & _).
  unfold exec. rewrite He. reflexivity.
Qed.

Lemma loop_cons p ps w : loop (p :: ps) w = loop ps (exec (iteration p) w).
Proof.
  simpl. unfold bind at 1. rewrite (iteration_returns p w). reflexivity.
Qed.

(** The snapshot after an iteration, in terms of the data model: the
    validated reading when the line has one, the old snapshot
    otherwise. *)
Lemma snapshot_after_iteration p w :
  latest_data (exec (iteration p) w) = default (latest_data w) (reading_of p).
Proof.
  unfold reading_of.
  destruct (in_waiting p) as [e|n] eqn:H.
  { unfold exec. rewrite (iteration_in_waiting_raises p w e H). reflexivity. }
  destruct (N.eqb_spec n 0) as [->|Hn].
  { unfold exec. rewrite (iteration_no_data p w H).
    destruct (readline_decode p); reflexivity. }
  destruct (readline_decode p) as [e|raw] eqn:Hr.
  { unfold exec. rewrite (iteration_read_raises p w n e H Hn Hr). reflexivity. }
  destruct (Nat.eq_dec (length (tokens raw)) 5%nat) as [Hlen|Hlen].
  - destruct (parse_fails (tokens raw)) eqn:Hf.
    + destruct (iteration_parse_fails p w n raw H Hn Hr Hf) as (e & _ & He).
      unfold exec. rewrite He. simpl.
      destruct (tokens raw) as [|t0 [|t1 [|t2 [|t3 [|t4 [|t5 ts]]]]]];
        try discriminate Hlen.
      simpl in *.
      destruct (py_int t0), (py_float t1), (py_float t2), (py_float t3),
        (py_float t4); try reflexivity; discriminate Hf.
    + destruct (tokens raw) as [|t0 [|t1 [|t2 [|t3 [|t4 [|t5 ts]]]]]] eqn:Htok;
        try discriminate Hlen.
      simpl in Hf |- *.
      destruct (py_int t0) as [|a] eqn:H0; [discriminate Hf|].
      destruct (py_float t1) as [|d] eqn:H1; [discriminate Hf|].
      destruct (py_float t2) as [|h] eqn:H2; [discriminate Hf|].
      destruct (py_float t3) as [|c] eqn:H3; [discriminate Hf|].
      destruct (py_float t4) as [|f] eqn:H4; [discriminate Hf|].
      unfold exec.
      rewrite (iteration_publishes p w n raw _ _ _ _ _ _ _ _ _ _
                 H Hn Hr Htok H0 H1 H2 H3 H4).
      reflexivity.
  - unfold exec. rewrite (iteration_wrong_count p w n raw H Hn Hr Hlen). simpl.
    destruct (tokens raw) as [|t0 [|t1 [|t2 [|t3 [|t4 [|t5 ts]]]]]];
      try reflexivity.
    exfalso. apply Hlen. reflexivity.
Qed.

Lemma exec_loop_cons p ps w :
  exec (loop (p :: ps)) w = exec (loop ps) (exec (iteration p) w).
Proof. unfold exec at 1 2. rewrite loop_cons. reflexivity. Qed.

Lemma loop_snapshot script : forall w,
  latest_data (exec (loop script) w)
  = fold_left (fun d p => default d (reading_of p)) script (latest_data w).
Proof.
  induction script as [|p ps IH]; intros w; [reflexivity|].
  rewrite exec_loop_cons, IH.
  simpl. f_equal. apply snapshot_after_iteration.
Qed.

Lemma validated_reading_inv parts r :
  validated_reading parts = Some r ->
  exists t0 t1 t2 t3 t4 a d h c f,
    parts = [t0; t1; t2; t3; t4]
    /\ py_int t0 = inr a /\ py_float t1 = inr d /\ py_float t2 = inr h
    /\ py_float t3 = inr c /\ py_float t4 = inr f
    /\ r = reading (PyInt a) (PyFloat d) (PyFloat h) (PyFloat c) (PyFloat f).
Proof.
  destruct parts as [|t0 [|t1 [|t2 [|t3 [|t4 [|t5 ts]]]]]]; try discriminate.
  simpl.
  destruct (py_int t0) as [|a] eqn:H0; [discriminate|].
  destruct (py_float t1) as [|d] eqn:H1; [discriminate|].
  destruct (py_float t2) as [|h] eqn:H2; [discriminate|].
  destruct (py_float t3) as [|c] eqn:H3; [discriminate|].
  destruct (py_float t4) as [|f] eqn:H4; [discriminate|].
  intros [= <-]. exists t0, t1, t2, t3, t4, a, d, h, c, f. repeat split; auto.
Qed.

Lemma reading_of_inv p r :
  reading_of p = Some r ->
  exists raw, readline_decode p = inr raw /\ validated_reading (tokens raw) = Some r.
Proof.
  unfold reading_of.
  destruct (in_waiting p) as [|n]; [discriminate|].
  destruct (readline_decode p) as [|raw]; [discriminate|].
  destruct (n =? 0)%N; [discriminate|]. eauto.
Qed.

(** *** The claims about single lines *)

(** C1. A received line whose stripped text splits on [","] into
    exactly five tokens, the first an integer literal and the other
    four float literals, makes the iteration replace [latest_data] by
    the mapping of the five parsed values, which [get_data] then
    returns. *)
Theorem wellformed_line_is_published p w n raw t0 t1 t2 t3 t4 a d h c f :
  in_waiting p = inr n -> n <> 0%N -> readline_decode p = inr raw ->
  tokens raw = [t0; t1; t2; t3; t4] ->
  py_int t0 = inr a -> py_float t1 = inr d -> py_float t2 = inr h ->
  py_float t3 = inr c -> py_float t4 = inr f ->
  let r := reading (PyInt a) (PyFloat d) (PyFloat h) (PyFloat c) (PyFloat f) in
  latest_data (exec (iteration p) w) = r
  /\ result get_data (exec (iteration p) w) = inr r.
Proof.
  intros H Hn Hr Htok H0 H1 H2 H3 H4 r.
  unfold exec.
  rewrite (iteration_publishes p w n raw _ _ _ _ _ _ _ _ _ _
             H Hn Hr Htok H0 H1 H2 H3 H4).
  split; reflexivity.
Qed.

Lemma wellformed_line_is_published_witness :
  let w' := exec (iteration (line "45,12.5,60.2,22.1,71.8")) started in
  let r := reading (PyInt 45)
             (PyFloat (float_of_decimal false 125 (-1)))
             (PyFloat (float_of_decimal false 602 (-1)))
             (PyFloat (float_of_decimal false 221 (-1)))
             (PyFloat (float_of_decimal false 718 (-1))) in
  latest_data w' = r /\ result get_data w' = inr r.
Proof.
  apply (wellformed_line_is_published _ started 22%N "45,12.5,60.2,22.1,71.8"
           "45" "12.5" "60.2" "22.1" "71.8");
    solve [reflexivity | discriminate | vm_compute; reflexivity].
Defined.

(** C2. A received line whose stripped text does not split into
    exactly five tokens, or splits into five tokens of which the first
    is no integer literal or one of the others no float literal, leaves
    [latest_data] as it was. *)
Theorem malformed_line_keeps_snapshot p w n raw :
  in_waiting p = inr n -> n <> 0%N -> readline_decode p = inr raw ->
  length (tokens raw) <> 5%nat \/ parse_fails (tokens raw) = true ->
  latest_data (exec (iteration p) w) = latest_data w.
Proof.
  intros H Hn Hr [Hlen|Hf]; unfold exec.
  - rewrite (iteration_wrong_count p w n raw H Hn Hr Hlen). reflexivity.
  - destruct (iteration_parse_fails p w n raw H Hn Hr Hf) as (e & _ & He).
    rewrite He. reflexivity.
Qed.

Lemma malformed_line_keeps_snapshot_witness :
  latest_data (exec (iteration (line "45,12.5,60.2")) started) = latest_data started
  /\ latest_data (exec (iteration (line "45,12.5,sixty,22.1,71.8")) started)
     = latest_data started.
Proof.
  split.
  - apply (malformed_line_keeps_snapshot _ started 12%N "45,12.5,60.2");
      [reflexivity | discriminate | reflexivity | left; vm_compute; discriminate].
  - apply (malformed_line_keeps_snapshot _ started 23%N "45,12.5,sixty,22.1,71.8");
      [reflexivity | discriminate | reflexivity | right; vm_compute; reflexivity].
Defined.

(** C3, as stated, fails: a line of five tokens whose first token is
    no integer literal raises [ValueError] inside the [try] block, and
    the one handler of the loop sleeps for a second. *)
Lemma parse_failure_pauses :
  ~ (forall p w n raw,
        in_waiting p = inr n -> n <> 0%N -> readline_decode p = inr raw ->
        length (tokens raw) <> 5%nat \/ parse_fails (tokens raw) = true ->
        slept (exec (iteration p) w) = slept w).
Proof.
  intros claim.
  specialize (claim (line "x,1,2,3,4") blank 9%N "x,1,2,3,4").
  assert (Hs : slept (exec (iteration (line "x,1,2,3,4")) blank) = [1])
    by (vm_compute; reflexivity).
  rewrite Hs in claim.
  discriminate claim;
    [reflexivity | discriminate | reflexivity | right; vm_compute; reflexivity].
Qed.

(** C3, amended. A line with a token count other than five is only
    echoed: the iteration ends without sleeping and without an error
    message. A line of five tokens with a failing numeric parse goes
    through the handler shared with device errors: the error is
    printed and the loop sleeps 1 second before the next iteration. *)
Theorem malformed_line_retry p w n raw :
  in_waiting p = inr n -> n <> 0%N -> readline_decode p = inr raw ->
  let w' := exec (iteration p) w in
  (length (tokens raw) <> 5%nat ->
   slept w' = slept w
   /\ stdout w' = (stdout w ++ [Received (strip raw)])%list)
  /\ (parse_fails (tokens raw) = true ->
      slept w' = (slept w ++ [1])%list
      /\ exists e,
          first_error (tokens raw) = Some e
          /\ stdout w' = (stdout w ++ [Received (strip raw); SerialError e])%list).
Proof.
  intros H Hn Hr w'. subst w'. unfold exec. split.
  - intros Hlen.
    rewrite (iteration_wrong_count p w n raw H Hn Hr Hlen). split; reflexivity.
  - intros Hf.
    destruct (iteration_parse_fails p w n raw H Hn Hr Hf) as (e & Hfe & He).
    rewrite He. split; [reflexivity|]. exists e. split; [exact Hfe|]. simpl.
    rewrite <- app_assoc. reflexivity.
Qed.

Lemma malformed_line_retry_witness :
  slept (exec (iteration (line "45,12.5,60.2")) started) = slept started
  /\ slept (exec (iteration (line "x,1,2,3,4")) started)
     = (slept started ++ [1])%list.
Proof.
  split.
  - apply (malformed_line_retry (line "45,12.5,60.2") started 12%N "45,12.5,60.2");
      [reflexivity | discriminate | reflexivity | vm_compute; discriminate].
  - apply (malformed_line_retry (line "x,1,2,3,4") started 9%N "x,1,2,3,4");
      [reflexivity | discriminate | reflexivity | vm_compute; reflexivity].
Defined.

(** *** Start-up *)

Lemma module_body_worker environ :
  environ !! "WERKZEUG_RUN_MAIN" = Some "true" ->
  module_body environ None blank
  = (inr tt,
     {| ser := Some {| port := "/dev/cu.usbmodem2101"; baudrate := 115200;
                       timeout := 1 |};
        latest_data := zero_reading; stdout := []; slept := [2];
        history := [zero_reading] |}).
Proof.
  intros H. unfold module_body. rewrite bool_decide_eq_true_2 by exact H.
  reflexivity.
Qed.

Lemma module_body_open_fails environ e :
  environ !! "WERKZEUG_RUN_MAIN" = Some "true" ->
  module_body environ (Some e) blank = (inl e, blank).
Proof.
  intros H. unfold module_body. rewrite bool_decide_eq_true_2 by exact H.
  reflexivity.
Qed.

Lemma module_body_no_device environ opening :
  environ !! "WERKZEUG_RUN_MAIN" <> Some "true" ->
  module_body environ opening blank
  = (inr tt,
     {| ser := None; latest_data := zero_reading; stdout := []; slept := [];
       history := [zero_reading] |}).
Proof.
  intros H. unfold module_body. rewrite bool_decide_eq_false_2 by exact H.
  reflexivity.
Qed.

Lemma module_body_loaded environ opening w :
  module_body environ opening blank = (inr tt, w) ->
  latest_data w = zero_reading /\ stdout w = []
  /\ (ser w = None <-> environ !! "WERKZEUG_RUN_MAIN" <> Some "true").
Proof.
  destruct (decide (environ !! "WERKZEUG_RUN_MAIN" = Some "true")) as [Ht|Hf].
  - destruct opening as [e|].
    + rewrite (module_body_open_fails environ e Ht). discriminate.
    + rewrite (module_body_worker environ Ht). intros [= <-]. simpl.
      repeat split; try reflexivity; [discriminate | intros Hn; contradiction].
  - rewrite (module_body_no_device environ opening Hf). intros [= <-]. simpl.
    repeat split; auto.
Qed.

(** The assignments an iteration makes, in terms of the data model:
    one, of the validated reading, when the line has one; none
    otherwise. *)
Lemma history_after_iteration p w :
  history (exec (iteration p) w)
  = (history w ++ match reading_of p with Some r => [r] | None => [] end)%list.
Proof.
  unfold reading_of.
  destruct (in_waiting p) as [e|n] eqn:H.
  { unfold exec. rewrite (iteration_in_waiting_raises p w e H). simpl.
    rewrite app_nil_r. reflexivity. }
  destruct (N.eqb_spec n 0) as [->|Hn].
  { unfold exec. rewrite (iteration_no_data p w H).
    destruct (readline_decode p); simpl; rewrite app_nil_r; reflexivity. }
  destruct (readline_decode p) as [e|raw] eqn:Hr.
  { unfold exec. rewrite (iteration_read_raises p w n e H Hn Hr). simpl.
    rewrite app_nil_r. reflexivity. }
  destruct (validated_reading (tokens raw)) as [r|] eqn:Hv.
  - apply validated_reading_inv in Hv
      as (t0 & t1 & t2 & t3 & t4 & a & d & h & c & f & Ht & H0 & H1 & H2 & H3 & H4 & ->).
    unfold exec.
    rewrite (iteration_publishes p w n raw _ _ _ _ _ _ _ _ _ _
               H Hn Hr Ht H0 H1 H2 H3 H4).
    reflexivity.
  - rewrite app_nil_r.
    destruct (Nat.eq_dec (length (tokens raw)) 5%nat) as [Hlen|Hlen].
    + assert (Hf : parse_fails (tokens raw) = true).
      { destruct (tokens raw) as [|t0 [|t1 [|t2 [|t3 [|t4 [|t5 ts]]]]]];
          try discriminate Hlen.
        simpl in Hv |- *.
        destruct (py_int t0), (py_float t1), (py_float t2), (py_float t3),
          (py_float t4); try reflexivity; discriminate Hv. }
      destruct (iteration_parse_fails p w n raw H Hn Hr Hf) as (e & _ & He).
      unfold exec. rewrite He. reflexivity.
    + unfold exec. rewrite (iteration_wrong_count p w n raw H Hn Hr Hlen).
      reflexivity.
Qed.

(** In every reachable state [latest_data] is the mapping of the last
    assignment, and every mapping ever assigned is whole. *)
Lemma reachable_history w :
  reachable w ->
  latest_data w = List.last (history w) ∅ /\ Forall whole (history w).
Proof.
  induction 1 as [environ opening w Hload | p w _ [IHl IHw] _].
  - destruct (decide (environ !! "WERKZEUG_RUN_MAIN" = Some "true")) as [Ht|Hf].
    + destruct opening as [e|].
      * rewrite (module_body_open_fails environ e Ht) in Hload. discriminate Hload.
      * rewrite (module_body_worker environ Ht) in Hload. injection Hload as <-.
        split; [reflexivity|]. repeat constructor.
    + rewrite (module_body_no_device environ opening Hf) in Hload.
      injection Hload as <-. split; [reflexivity|]. repeat constructor.
  - rewrite snapshot_after_iteration, history_after_iteration.
    destruct (reading_of p) as [r|] eqn:Hp; simpl.
    + split; [rewrite last_last; reflexivity|].
      apply Forall_app. split; [exact IHw|]. constructor; [|constructor].
      apply reading_of_inv in Hp as (raw & _ & Hv).
      apply validated_reading_inv in Hv
        as (t0 & t1 & t2 & t3 & t4 & a & d & h & c & f & _ & _ & _ & _ & _ & _ & ->).
      right. exists a, d, h, c, f. reflexivity.
    + rewrite app_nil_r. split; assumption.
Qed.

(** C4. An iteration leaves [latest_data] either exactly as it was or
    exactly the mapping of the five values parsed from the received
    line; the same holds over any number of iterations, for one of the
    lines received; and when the [try] block raises, at whichever field,
    nothing has been assigned and [latest_data] is still the old
    mapping. The global is never assigned field by field: an iteration
    makes no assignment to it, or exactly one, of the complete new
    mapping; so every value it ever takes in a run is whole (the zero
    mapping or the five values of one line), and [latest_data] is
    always the last one assigned. No mapping mixing old and new fields
    is ever stored. *)
Theorem snapshot_old_or_new :
  (forall p w,
      latest_data (exec (iteration p) w) = latest_data w
      \/ exists raw t0 t1 t2 t3 t4 a d h c f,
          readline_decode p = inr raw /\ tokens raw = [t0; t1; t2; t3; t4]
          /\ py_int t0 = inr a /\ py_float t1 = inr d /\ py_float t2 = inr h
          /\ py_float t3 = inr c /\ py_float t4 = inr f
          /\ latest_data (exec (iteration p) w)
             = reading (PyInt a) (PyFloat d) (PyFloat h) (PyFloat c) (PyFloat f))
  /\ (forall script w,
         latest_data (exec (loop script) w) = latest_data w
         \/ exists p raw, In p script /\ readline_decode p = inr raw
            /\ validated_reading (tokens raw)
               = Some (latest_data (exec (loop script) w)))
  /\ (forall p w,
         match result (try_block p) w with
         | inl _ => latest_data (exec (try_block p) w) = latest_data w
                    /\ history (exec (try_block p) w) = history w
         | inr _ => True
         end)
  /\ (forall p w,
         history (exec (iteration p) w) = history w
         \/ exists raw t0 t1 t2 t3 t4 a d h c f,
             readline_decode p = inr raw /\ tokens raw = [t0; t1; t2; t3; t4]
             /\ py_int t0 = inr a /\ py_float t1 = inr d /\ py_float t2 = inr h
             /\ py_float t3 = inr c /\ py_float t4 = inr f
             /\ history (exec (iteration p) w)
                = (history w
                   ++ [reading (PyInt a) (PyFloat d) (PyFloat h) (PyFloat c)
                         (PyFloat f)])%list)
  /\ (forall w,
         reachable w ->
         latest_data w = List.last (history w) ∅ /\ Forall whole (history w)).
Proof.
  split; [|split; [|split; [|split]]].
  - intros p w. rewrite snapshot_after_iteration.
    destruct (reading_of p) as [r|] eqn:Hp; [right|left; reflexivity].
    apply reading_of_inv in Hp as (raw & Hr & Hv).
    apply validated_reading_inv in Hv
      as (t0 & t1 & t2 & t3 & t4 & a & d & h & c & f & Ht & H0 & H1 & H2 & H3 & H4 & ->).
    exists raw, t0, t1, t2, t3, t4, a, d, h, c, f. simpl. repeat split; auto.
  - intros script. induction script as [|p ps IH]; intros w; [left; reflexivity|].
    rewrite exec_loop_cons.
    destruct (IH (exec (iteration p) w)) as [Hsame|(q & raw & Hin & Hr & Hv)].
    + rewrite Hsame, snapshot_after_iteration.
      destruct (reading_of p) as [r|] eqn:Hp; [right|left; reflexivity].
      apply reading_of_inv in Hp as (raw & Hr & Hv).
      exists p, raw. simpl. auto.
    + right. exists q, raw. simpl. auto.
  - intros p w. unfold result, exec, try_block, bind, call.
    destruct (in_waiting p) as [e|n]; [split; reflexivity|].
    destruct (n =? 0)%N; simpl; [exact I|].
    destruct (readline_decode p) as [e|raw]; [split; reflexivity|]. simpl.
    destruct (split "," (strip raw)) as [|t0 [|t1 [|t2 [|t3 [|t4 [|t5 ts]]]]]];
      simpl; try exact I.
    destruct (py_int t0); [split; reflexivity|].
    destruct (py_float t1); [split; reflexivity|].
    destruct (py_float t2); [split; reflexivity|].
    destruct (py_float t3); [split; reflexivity|].
    destruct (py_float t4); [split; reflexivity|].
    exact I.
  - intros p w. rewrite history_after_iteration.
    destruct (reading_of p) as [r|] eqn:Hp;
      [right | left; apply app_nil_r].
    apply reading_of_inv in Hp as (raw & Hr & Hv).
    apply validated_reading_inv in Hv
      as (t0 & t1 & t2 & t3 & t4 & a & d & h & c & f & Ht & H0 & H1 & H2 & H3 & H4 & ->).
    exists raw, t0, t1, t2, t3, t4, a, d, h, c, f. repeat split; auto.
  - apply reachable_history.
Qed.

Lemma snapshot_old_or_new_witness :
  let w := exec (iteration (line "45,12.5,60.2,22.1,71.8"))
             (exec (iteration (line "x,1,2,3,4")) started) in
  latest_data w = List.last (history w) ∅ /\ Forall whole (history w).
Proof.
  intros w.
  destruct snapshot_old_or_new as (_ & _ & _ & _ & Hreach).
  apply Hreach.
  apply reachable_step; [|discriminate].
  apply reachable_step; [|discriminate].
  apply (reachable_start worker_environ None). reflexivity.
Defined.

(** C5. When [ser.in_waiting] or [ser.readline().decode()] raises,
    the iteration leaves [latest_data] untouched, prints the error and
    sleeps 1 second; the next iteration, with its next read attempt,
    starts only after that sleep. *)
Theorem device_error_pauses p w e :
  in_waiting p = inl e
  \/ (exists n, in_waiting p = inr n /\ n <> 0%N /\ readline_decode p = inl e) ->
  let w' := exec (iteration p) w in
  latest_data w' = latest_data w
  /\ slept w' = (slept w ++ [1])%list
  /\ stdout w' = (stdout w ++ [SerialError e])%list
  /\ forall rest, loop (p :: rest) w = loop rest (paused 1 (logged (SerialError e) w)).
Proof.
  intros Herr w'.
  assert (He : iteration p w = (inr tt, paused 1 (logged (SerialError e) w))).
  { destruct Herr as [H|(n & H & Hn & Hr)].
    - apply (iteration_in_waiting_raises p w e H).
    - apply (iteration_read_raises p w n e H Hn Hr). }
  subst w'. unfold exec. rewrite He.
  repeat split; try reflexivity.
  intros rest. rewrite loop_cons. unfold exec. rewrite He. reflexivity.
Qed.

Lemma device_error_pauses_witness :
  let gone := {| in_waiting := inl (SerialException "device disconnected");
                 readline_decode := inl (SerialException "device disconnected") |} in
  let garbled := {| in_waiting := inr 3%N; readline_decode := inl UnicodeDecodeError |} in
  (latest_data (exec (iteration gone) started) = latest_data started
   /\ slept (exec (iteration gone) started) = [2; 1])
  /\ (latest_data (exec (iteration garbled) started) = latest_data started
      /\ slept (exec (iteration garbled) started) = [2; 1]).
Proof.
  intros gone garbled. split.
  - destruct (device_error_pauses gone started (SerialException "device disconnected"))
      as (Hd & Hs & _); [left; reflexivity|].
    split; [exact Hd | exact Hs].
  - destruct (device_error_pauses garbled started UnicodeDecodeError)
      as (Hd & Hs & _); [right; exists 3%N; repeat split; discriminate|].
    split; [exact Hd | exact Hs].
Defined.

Lemma read_serial_no_device script w :
  ser w = None -> read_serial script w = (inr tt, w).
Proof.
  intros H. unfold read_serial, bind, get_ser. rewrite H. reflexivity.
Qed.

Lemma read_serial_device script w s :
  ser w = Some s -> read_serial script w = loop script w.
Proof.
  intros H. unfold read_serial, bind, get_ser. rewrite H. reflexivity.
Qed.

Lemma quiet_loop_keeps_snapshot script w :
  Forall (fun p => reading_of p = None) script ->
  latest_data (exec (loop script) w) = latest_data w.
Proof.
  intros Hq. rewrite loop_snapshot.
  induction Hq as [|p ps Hp _ IH]; [reflexivity|].
  simpl. rewrite Hp. exact IH.
Qed.

Lemma quiet_read_serial_keeps_snapshot script w :
  Forall (fun p => reading_of p = None) script ->
  latest_data (exec (read_serial script) w) = latest_data w.
Proof.
  intros Hq. unfold exec. destruct (ser w) as [s|] eqn:Hs.
  - rewrite (read_serial_device script w s Hs).
    apply (quiet_loop_keeps_snapshot script w Hq).
  - rewrite (read_serial_no_device script w Hs). reflexivity.
Qed.

(** C6. Once the module has loaded, [get_data] returns the all-zero
    mapping, and keeps returning it for as long as no iteration of
    [read_serial] has a validated reading to publish. When the
    environment does not select the worker process, [ser] is [None] and
    [read_serial] returns at once, whatever the device would answer:
    the world, and with it the zero mapping, never changes. *)
Theorem zero_until_first_publish environ opening w0 :
  module_body environ opening blank = (inr tt, w0) ->
  result get_data w0 = inr zero_reading
  /\ (forall script,
         Forall (fun p => reading_of p = None) script ->
         result get_data (exec (read_serial script) w0) = inr zero_reading)
  /\ (environ !! "WERKZEUG_RUN_MAIN" <> Some "true" ->
      ser w0 = None
      /\ forall script,
          read_serial script w0 = (inr tt, w0)
          /\ result get_data (exec (read_serial script) w0) = inr zero_reading).
Proof.
  intros Hload.
  destruct (module_body_loaded environ opening w0 Hload) as (Hz & _ & Hser).
  assert (Hget : forall w, result get_data w = inr (latest_data w))
    by reflexivity.
  split; [|split].
  - rewrite Hget, Hz. reflexivity.
  - intros script Hq.
    rewrite Hget, (quiet_read_serial_keeps_snapshot script w0 Hq), Hz.
    reflexivity.
  - intros Henv. apply Hser in Henv. split; [exact Henv|].
    intros script. unfold exec.
    rewrite (read_serial_no_device script w0 Henv). simpl.
    split; [reflexivity|]. rewrite Hget, Hz. reflexivity.
Qed.

Lemma zero_until_first_publish_witness :
  let idle := exec (module_body ∅ None) blank in
  (result get_data started = inr zero_reading
   /\ result get_data
        (exec (read_serial [line "45,12.5,60.2"; line "x,1,2,3,4"]) started)
      = inr zero_reading)
  /\ (ser idle = None
      /\ read_serial [line "45,12.5,60.2,22.1,71.8"] idle = (inr tt, idle)).
Proof.
  intros idle. split.
  - destruct (zero_until_first_publish worker_environ None started)
      as (H0 & Hq & _); [reflexivity|].
    split; [exact H0|].
    apply Hq. repeat constructor.
  - destruct (zero_until_first_publish ∅ None idle) as (_ & _ & Hn);
      [reflexivity|].
    destruct Hn as (Hser & Hrun); [discriminate|].
    split; [exact Hser | apply Hrun].
Defined.

(** C7, as stated, fails: after opening the port the module sleeps for
    two seconds, not one. *)
Lemma settle_delay_is_not_one_second :
  ~ (forall environ w,
        environ !! "WERKZEUG_RUN_MAIN" = Some "true" ->
        module_body environ None blank = (inr tt, w) ->
        slept w = [1]).
Proof.
  intros claim.
  specialize (claim worker_environ started eq_refl eq_refl).
  vm_compute in claim. discriminate claim.
Qed.

(** C7, amended. In the worker process the module opens
    [/dev/cu.usbmodem2101] at 115200 baud with a read timeout of 1
    second and then sleeps exactly 2 seconds; that is all it does
    before the reader can start. *)
Theorem settle_delay environ w :
  environ !! "WERKZEUG_RUN_MAIN" = Some "true" ->
  module_body environ None blank = (inr tt, w) ->
  ser w = Some {| port := "/dev/cu.usbmodem2101"; baudrate := 115200;
                  timeout := 1 |}
  /\ slept w = [2] /\ stdout w = [].
Proof.
  intros Henv. rewrite (module_body_worker environ Henv).
  intros [= <-]. repeat split.
Qed.

Lemma settle_delay_witness :
  ser started = Some {| port := "/dev/cu.usbmodem2101"; baudrate := 115200;
                        timeout := 1 |}
  /\ slept started = [2] /\ stdout started = [].
Proof.
  apply (settle_delay worker_environ started); reflexivity.
Defined.

(** C8. [get_data] returns the current [latest_data] and changes
    nothing; a second call returns the same mapping as the first, also
    when the reader loop has run in between without a reading to
    publish. *)
Theorem get_data_repeatable w script :
  Forall (fun p => reading_of p = None) script ->
  let first := result get_data w in
  let w1 := exec get_data w in
  let second := result get_data (exec (read_serial script) w1) in
  w1 = w /\ first = inr (latest_data w) /\ second = first.
Proof.
  intros Hq first w1 second. subst first w1 second.
  repeat split.
  change (exec get_data w) with w.
  change (inr (latest_data (exec (read_serial script) w))
          = (inr (latest_data w) : exn + gmap string pyval)).
  rewrite (quiet_read_serial_keeps_snapshot script w Hq). reflexivity.
Qed.

Lemma get_data_repeatable_witness :
  let w := exec (iteration (line "45,12.5,60.2,22.1,71.8")) started in
  result get_data (exec (read_serial [line "1,2,3"; line "45"])
                     (exec get_data w))
  = result get_data w.
Proof.
  intros w.
  apply (get_data_repeatable w [line "1,2,3"; line "45"]).
  repeat constructor.
Defined.

(** *** The shape of the snapshot *)

Lemma dom_reading a d h c f : dom (reading a d h c f) = field_names.
Proof.
  unfold reading, dict_display, field_names. simpl.
  rewrite !dom_insert_L, dom_empty_L. set_solver.
Qed.

Lemma published_logged o w :
  published (logged o w) = published w || is_Parsed o.
Proof.
  unfold published, logged, exec. simpl.
  rewrite existsb_app. simpl. rewrite orb_false_r. reflexivity.
Qed.

Lemma well_shaped_iteration p w :
  well_shaped w -> well_shaped (exec (iteration p) w).
Proof.
  intros Hw.
  destruct (iteration_outcome p w) as (w' & He & Hout).
  unfold exec. rewrite He. simpl.
  destruct Hout; unfold well_shaped in *;
    rewrite ?published_logged; simpl; rewrite ?orb_false_r;
    try exact Hw.
  - change (published (paused 1 (logged (SerialError e) w)))
      with (published (logged (SerialError e) w)).
    rewrite published_logged. simpl. rewrite orb_false_r. exact Hw.
  - change (published (paused 1 (logged (SerialError e) (logged (Received (strip raw)) w))))
      with (published (logged (SerialError e) (logged (Received (strip raw)) w))).
    rewrite !published_logged. simpl. rewrite !orb_false_r. exact Hw.
  - rewrite orb_true_r. exists a, d, h, c, f. reflexivity.
Qed.

Lemma reachable_well_shaped w : reachable w -> well_shaped w.
Proof.
  induction 1 as [environ opening w Hload | p w _ IH _].
  - destruct (module_body_loaded environ opening w Hload) as (Hz & Hout & _).
    unfold well_shaped, published. rewrite Hout. simpl. exact Hz.
  - apply well_shaped_iteration. exact IH.
Qed.

(** C10. In every reachable state [latest_data] has exactly the keys
    [angle], [distance], [humidity], [temperatureC] and
    [temperatureF]. Until the loop has stored a reading, all five
    values are the integer 0; from the first store on, the value of
    [angle] is an integer and the other four values are floats. *)
Theorem snapshot_shape w :
  reachable w ->
  dom (latest_data w) = field_names
  /\ (published w = false ->
      forall k, k ∈ field_names -> latest_data w !! k = Some (PyInt 0))
  /\ (published w = true ->
      exists a d h c f,
        latest_data w !! "angle" = Some (PyInt a)
        /\ latest_data w !! "distance" = Some (PyFloat d)
        /\ latest_data w !! "humidity" = Some (PyFloat h)
        /\ latest_data w !! "temperatureC" = Some (PyFloat c)
        /\ latest_data w !! "temperatureF" = Some (PyFloat f)).
Proof.
  intros Hr. apply reachable_well_shaped in Hr. unfold well_shaped in Hr.
  destruct (published w).
  - destruct Hr as (a & d & h & c & f & ->).
    split; [apply dom_reading|]. split; [discriminate|].
    intros _. exists a, d, h, c, f. repeat split.
  - rewrite Hr. split; [apply dom_reading|]. split; [|discriminate].
    intros _ k Hk. unfold field_names in Hk.
    repeat (apply elem_of_union in Hk as [Hk|Hk]);
      apply elem_of_singleton in Hk; subst k; reflexivity.
Qed.

Lemma snapshot_shape_witness :
  let w := exec (iteration (line "45,12.5,60.2,22.1,71.8")) started in
  (dom (latest_data started) = field_names
   /\ latest_data started !! "distance" = Some (PyInt 0))
  /\ (dom (latest_data w) = field_names
      /\ exists a d h c f,
        latest_data w !! "angle" = Some (PyInt a)
        /\ latest_data w !! "distance" = Some (PyFloat d)
        /\ latest_data w !! "humidity" = Some (PyFloat h)
        /\ latest_data w !! "temperatureC" = Some (PyFloat c)
        /\ latest_data w !! "temperatureF" = Some (PyFloat f)).
Proof.
  intros w.
  assert (Hs : reachable started)
    by (apply (reachable_start worker_environ None); reflexivity).
  split.
  - destruct (snapshot_shape started Hs) as (Hd & Hz & _).
    split; [exact Hd|]. apply Hz; [reflexivity|]. unfold field_names. set_solver.
  - destruct (snapshot_shape w) as (Hd & _ & Hp).
    + apply reachable_step; [exact Hs | discriminate].
    + split; [exact Hd|]. apply Hp. vm_compute. reflexivity.
Defined.

(** *** What [int] and [float] accept *)

Section Padding.
Variable sp : ascii -> bool.

Lemma lstrip_with_spaces l x :
  string_forall sp l = true -> lstrip_with sp (l ++ x) = lstrip_with sp x.
Proof.
  induction l as [|c l IH]; simpl; [reflexivity|].
  intros [Hc Hl]%andb_true_iff. rewrite Hc. auto.
Qed.

Lemma lstrip_with_all_spaces r :
  string_forall sp r = true -> lstrip_with sp r = "".
Proof.
  induction r as [|c r IH]; simpl; [reflexivity|].
  intros [Hc Hr]%andb_true_iff. rewrite Hc. auto.
Qed.

Lemma rstrip_with_all_spaces r :
  string_forall sp r = true -> rstrip_with sp r = "".
Proof.
  induction r as [|c r IH]; simpl; [reflexivity|].
  intros [Hc Hr]%andb_true_iff. rewrite (IH Hr), Hc. reflexivity.
Qed.

Lemma rstrip_with_spaces x r :
  string_forall sp r = true -> rstrip_with sp (x ++ r) = rstrip_with sp x.
Proof.
  intros Hr. induction x as [|c x IH]; simpl.
  - apply rstrip_with_all_spaces, Hr.
  - rewrite IH. reflexivity.
Qed.

Lemma strip_with_padding l x r :
  string_forall sp l = true -> string_forall sp r = true ->
  strip_with sp (l ++ x ++ r) = strip_with sp x.
Proof.
  intros Hl Hr. unfold strip_with. rewrite (lstrip_with_spaces l _ Hl).
  induction x as [|c x IH]; simpl.
  - change ("" ++ r) with r.
    rewrite (lstrip_with_all_spaces r Hr). reflexivity.
  - destruct (sp c); [exact IH|].
    change (String c (x ++ r)) with (String c x ++ r).
    apply rstrip_with_spaces, Hr.
Qed.
End Padding.

Lemma c_isspace_ascii c : c_isspace c = true -> to_ascii_char c = Some c.
Proof.
  destruct c as [[] [] [] [] [] [] [] []]; vm_compute; intros H;
    solve [reflexivity | discriminate H].
Qed.

Lemma to_ascii_spaces l : string_forall c_isspace l = true -> to_ascii l = Some l.
Proof.
  induction l as [|c l IH]; simpl; [reflexivity|].
  intros [Hc Hl]%andb_true_iff. rewrite (c_isspace_ascii c Hc), (IH Hl).
  reflexivity.
Qed.

Lemma to_ascii_app a b a' b' :
  to_ascii a = Some a' -> to_ascii b = Some b' -> to_ascii (a ++ b) = Some (a' ++ b').
Proof.
  revert a'. induction a as [|c a IH]; simpl; intros a'.
  - intros [= <-] Hb. exact Hb.
  - destruct (to_ascii_char c) as [c'|]; [|discriminate].
    destruct (to_ascii a) as [t|]; [|discriminate].
    intros [= <-] Hb. rewrite (IH t eq_refl Hb). reflexivity.
Qed.

(** Whitespace around a literal changes nothing. *)
Lemma py_int_padding l t r v :
  string_forall c_isspace l = true -> string_forall c_isspace r = true ->
  py_int t = inr v -> py_int (l ++ t ++ r) = inr v.
Proof.
  intros Hl Hr. unfold py_int.
  destruct (to_ascii t) as [t'|] eqn:Ht; [|discriminate].
  rewrite (to_ascii_app l (t ++ r) l (t' ++ r) (to_ascii_spaces l Hl)
             (to_ascii_app t r t' r Ht (to_ascii_spaces r Hr))).
  rewrite (strip_with_padding c_isspace l t' r Hl Hr).
  destruct (split_sign _) as [neg body].
  destruct (digitpart body) as [ds|]; [|discriminate].
  destruct (int_max_str_digits <? length ds)%nat; [discriminate|].
  auto.
Qed.

Lemma py_float_padding l t r v :
  string_forall c_isspace l = true -> string_forall c_isspace r = true ->
  py_float t = inr v -> py_float (l ++ t ++ r) = inr v.
Proof.
  intros Hl Hr. unfold py_float.
  destruct (to_ascii t) as [t'|] eqn:Ht; [|discriminate].
  rewrite (to_ascii_app l (t ++ r) l (t' ++ r) (to_ascii_spaces l Hl)
             (to_ascii_app t r t' r Ht (to_ascii_spaces r Hr))).
  rewrite (strip_with_padding c_isspace l t' r Hl Hr).
  destruct (drop_underscores None _) as [u|]; [|discriminate].
  destruct (split_sign u) as [neg body].
  destruct (absfloatvalue neg body); [auto|discriminate].
Qed.

(** The characters that lower to one of the letters of [nan], [inf]
    and [infinity]. *)
Lemma tolower_letter c :
  (tolower c = "n"%char -> c = "n"%char \/ c = "N"%char)
  /\ (tolower c = "a"%char -> c = "a"%char \/ c = "A"%char)
  /\ (tolower c = "i"%char -> c = "i"%char \/ c = "I"%char)
  /\ (tolower c = "f"%char -> c = "f"%char \/ c = "F"%char)
  /\ (tolower c = "t"%char -> c = "t"%char \/ c = "T"%char)
  /\ (tolower c = "y"%char -> c = "y"%char \/ c = "Y"%char).
Proof.
  destruct c as [[] [] [] [] [] [] [] []];
    repeat split; intros H; vm_compute in H;
    solve [discriminate H | left; reflexivity | right; reflexivity].
Qed.

Ltac letter_cases H :=
  first
    [ apply (proj1 (tolower_letter _)) in H
    | apply (proj1 (proj2 (tolower_letter _))) in H
    | apply (proj1 (proj2 (proj2 (tolower_letter _)))) in H
    | apply (proj1 (proj2 (proj2 (proj2 (tolower_letter _))))) in H
    | apply (proj1 (proj2 (proj2 (proj2 (proj2 (tolower_letter _)))))) in H
    | apply (proj2 (proj2 (proj2 (proj2 (proj2 (tolower_letter _)))))) in H ];
  destruct H as [-> | ->].

Ltac spelled t H :=
  repeat (destruct t as [|? t]; simpl in H; [discriminate H|];
          let Hc := fresh "Hc" in
          injection H as Hc H; letter_cases Hc);
  (destruct t; simpl in H; [|discriminate H]).

(** [nan], [inf] and [infinity], in any mix of upper and lower case
    and with or without a sign, are float literals, and none of their
    values is finite. *)
Lemma nonfinite_spellings t :
  let word := lower (list_ascii_of_string t) in
  word = "nan" \/ word = "inf" \/ word = "infinity" ->
  forall sign, sign = "" \/ sign = "+" \/ sign = "-" ->
  exists f, py_float (sign ++ t) = inr f /\ isfinite f = false.
Proof.
  intros word Hw sign Hs. subst word. unfold lower in Hw. simpl in Hw.
  destruct Hw as [H | [H | H]];
    destruct Hs as [-> | [-> | ->]];
    spelled t H; eexists; split; vm_compute; reflexivity.
Qed.

Lemma digit_facts c :
  is_digit c = true ->
  to_ascii_char c = Some c /\ c_isspace c = false
  /\ Ascii.eqb c "-" = false /\ Ascii.eqb c "+" = false
  /\ Ascii.eqb c "_" = false.
Proof.
  destruct c as [[] [] [] [] [] [] [] []]; vm_compute; intros H;
    solve [discriminate H | repeat split].
Qed.

Lemma rstrip_with_keeps_head sp c s :
  sp c = false -> exists r, rstrip_with sp (String c s) = String c r.
Proof.
  intros Hc. simpl. destruct (rstrip_with sp s); rewrite ?Hc; eauto.
Qed.

(** How a literal that starts with a digit, and the same literal with
    a sign in front, reach the parser proper. *)
Lemma signed_literal_stripped sg t t' :
  sg = "+"%char \/ sg = "-"%char ->
  starts_with_digit t = true -> to_ascii t = Some t' ->
  exists c r,
    is_digit c = true
    /\ strip_with c_isspace t' = String c r
    /\ to_ascii (String sg t) = Some (String sg t')
    /\ strip_with c_isspace (String sg t') = String sg (String c r).
Proof.
  intros Hsg Hd Ht. destruct t as [|c t]; [discriminate Hd|]. simpl in Hd.
  destruct (digit_facts c Hd) as (Hc & Hsp & _).
  simpl in Ht. rewrite Hc in Ht.
  destruct (to_ascii t) as [t0|] eqn:Ht0; [|discriminate Ht].
  injection Ht as <-.
  destruct (rstrip_with_keeps_head c_isspace c t0 Hsp) as [r Hr].
  exists c, r. split; [exact Hd|]. split.
  - unfold strip_with. simpl lstrip_with. rewrite Hsp. exact Hr.
  - split.
    + simpl. rewrite Hc, Ht0. destruct Hsg as [-> | ->]; reflexivity.
    + unfold strip_with.
      assert (Hs : c_isspace sg = false) by (destruct Hsg as [-> | ->]; reflexivity).
      simpl lstrip_with. rewrite Hs.
      change (rstrip_with c_isspace (String sg (String c t0)))
        with (match rstrip_with c_isspace (String c t0) with
              | "" => if c_isspace sg then "" else String sg ""
              | x => String sg x
              end).
      rewrite Hr. reflexivity.
Qed.

(** An integer literal that starts with a digit is still one with a
    sign in front, and [-] negates its value. *)
Lemma py_int_signed t v :
  starts_with_digit t = true -> py_int t = inr v ->
  py_int ("+" ++ t) = inr v /\ py_int ("-" ++ t) = inr (- v).
Proof.
  intros Hd. unfold py_int.
  destruct (to_ascii t) as [t'|] eqn:Ht; [|discriminate].
  destruct (signed_literal_stripped "+" t t' (or_introl eq_refl) Hd Ht)
    as (c & r & Hc & Hs & Hp & Hps).
  destruct (signed_literal_stripped "-" t t' (or_intror eq_refl) Hd Ht)
    as (c' & r' & _ & Hs' & Hm & Hms).
  rewrite Hs' in Hs. injection Hs as -> ->.
  destruct (digit_facts c Hc) as (_ & _ & Hm1 & Hp1 & _).
  change ("+" ++ t) with (String "+" t). change ("-" ++ t) with (String "-" t).
  rewrite Hp, Hps, Hm, Hms, Hs'. simpl. rewrite Hm1, Hp1.
  destruct (digitpart _) as [ds|]; [|discriminate].
  destruct (int_max_str_digits <? length ds)%nat; [discriminate|].
  intros [= <-]. split; reflexivity.
Qed.

Lemma absfloatvalue_any_sign neg neg' body f :
  absfloatvalue neg body = Some f -> exists f', absfloatvalue neg' body = Some f'.
Proof.
  unfold absfloatvalue.
  destruct (_ || _); [eauto|].
  destruct (String.eqb _ "nan"); [eauto|].
  destruct (decimal_literal body) as [[m e10]|]; [eauto|discriminate].
Qed.

(** A float literal that starts with a digit is still one with a sign
    in front. *)
Lemma py_float_signed t v :
  starts_with_digit t = true -> py_float t = inr v ->
  raised (py_float ("+" ++ t)) = false /\ raised (py_float ("-" ++ t)) = false.
Proof.
  intros Hd. unfold py_float.
  destruct (to_ascii t) as [t'|] eqn:Ht; [|discriminate].
  destruct (signed_literal_stripped "+" t t' (or_introl eq_refl) Hd Ht)
    as (c & r & Hc & Hs & Hp & Hps).
  destruct (signed_literal_stripped "-" t t' (or_intror eq_refl) Hd Ht)
    as (c' & r' & _ & Hs' & Hm & Hms).
  rewrite Hs' in Hs. injection Hs as -> ->.
  destruct (digit_facts c Hc) as (_ & _ & Hm1 & Hp1 & Hu).
  change ("+" ++ t) with (String "+" t). change ("-" ++ t) with (String "-" t).
  rewrite Hp, Hps, Hm, Hms, Hs'.
  cbn [list_ascii_of_string drop_underscores Ascii.eqb Bool.eqb andb negb].
  rewrite Hu.
  destruct (drop_underscores (Some c) _) as [u|]; [|discriminate].
  cbn [split_sign]. rewrite Hm1, Hp1.
  cbn [split_sign Ascii.eqb Bool.eqb].
  destruct (absfloatvalue false (c :: u)) as [f|] eqn:Hf; [|discriminate].
  intros _.
  destruct (absfloatvalue_any_sign false true _ f Hf) as [f' ->].
  split; reflexivity.
Qed.

(** *** Underscores between digits *)

Lemma list_ascii_app x y :
  list_ascii_of_string (x ++ y)
  = (list_ascii_of_string x ++ list_ascii_of_string y)%list.
Proof.
  induction x as [|c x IH]; [reflexivity|].
  change (String c x ++ y) with (String c (x ++ y)). simpl. rewrite IH. reflexivity.
Qed.

Lemma to_ascii_app_inv x y t :
  to_ascii (x ++ y) = Some t ->
  exists x' y', to_ascii x = Some x' /\ to_ascii y = Some y' /\ t = x' ++ y'.
Proof.
  revert t. induction x as [|c x IH]; intros t.
  - change ("" ++ y) with y. intros Hy. exists "", t. auto.
  - change (String c x ++ y) with (String c (x ++ y)). simpl.
    destruct (to_ascii_char c) as [c'|]; [|discriminate].
    destruct (to_ascii (x ++ y)) as [u|] eqn:Hu; [|discriminate].
    intros [= <-]. destruct (IH u eq_refl) as (x' & y' & -> & Hy & ->).
    exists (String c' x'), y'. auto.
Qed.

Section StripAround.
Variable sp : ascii -> bool.

Lemma lstrip_with_app_kept x d y :
  sp d = false ->
  lstrip_with sp (x ++ String d y) = lstrip_with sp x ++ String d y.
Proof.
  intros Hd. induction x as [|c x IH].
  - change ("" ++ String d y) with (String d y). simpl. rewrite Hd. reflexivity.
  - change (String c x ++ String d y) with (String c (x ++ String d y)).
    simpl. destruct (sp c); [exact IH | reflexivity].
Qed.

Lemma rstrip_with_cons_kept c s :
  sp c = false -> rstrip_with sp (String c s) = String c (rstrip_with sp s).
Proof. intros Hc. simpl. destruct (rstrip_with sp s); rewrite ?Hc; reflexivity. Qed.

Lemma rstrip_with_app_kept x d y :
  sp d = false ->
  rstrip_with sp (x ++ String d y) = x ++ String d (rstrip_with sp y).
Proof.
  intros Hd. induction x as [|c x IH].
  - change ("" ++ String d y) with (String d y).
    apply rstrip_with_cons_kept, Hd.
  - change (String c x ++ String d y) with (String c (x ++ String d y)).
    simpl. rewrite IH.
    destruct x; reflexivity.
Qed.

Lemma strip_with_app_kept x d y :
  sp d = false ->
  strip_with sp (x ++ String d y)
  = lstrip_with sp x ++ String d (rstrip_with sp y).
Proof.
  intros Hd. unfold strip_with.
  rewrite (lstrip_with_app_kept x d y Hd). apply rstrip_with_app_kept, Hd.
Qed.
End StripAround.

Lemma split_sign_app lx d z :
  is_digit d = true ->
  split_sign (lx ++ d :: z)%list
  = (fst (split_sign lx), (snd (split_sign lx) ++ d :: z)%list).
Proof.
  intros Hd. destruct lx as [|c lx].
  - simpl. destruct (digit_facts d Hd) as (_ & _ & -> & -> & _). reflexivity.
  - simpl. destruct (Ascii.eqb c "-"); [reflexivity|].
    destruct (Ascii.eqb c "+"); reflexivity.
Qed.

Lemma digitpart_from_underscore d1 d2 z y : forall b,
  is_digit d1 = true -> is_digit d2 = true ->
  digitpart_from b (y ++ d1 :: "_"%char :: d2 :: z)%list
  = digitpart_from b (y ++ d1 :: d2 :: z)%list.
Proof.
  intros b H1 H2. revert b. induction y as [|c y IH]; intros b.
  - simpl. rewrite H1, H2. reflexivity.
  - simpl. rewrite IH. destruct (is_digit c); [reflexivity|].
    destruct (Ascii.eqb c "_"); [|reflexivity].
    destruct b; [apply IH | reflexivity].
Qed.

Lemma drop_underscores_underscore d1 d2 z y : forall prev,
  is_digit d1 = true -> is_digit d2 = true ->
  drop_underscores prev (y ++ d1 :: "_"%char :: d2 :: z)%list
  = drop_underscores prev (y ++ d1 :: d2 :: z)%list.
Proof.
  intros prev H1 H2. revert prev. induction y as [|c y IH]; intros prev.
  - destruct (digit_facts d1 H1) as (_ & _ & _ & _ & Hu1).
    destruct (digit_facts d2 H2) as (_ & _ & _ & _ & Hu2).
    simpl. rewrite Hu1, Hu2, H1, H2. simpl.
    rewrite ?andb_false_r. reflexivity.
  - simpl. rewrite !IH. reflexivity.
Qed.

(** The two spellings of a literal, without and with an underscore
    between the adjacent digits [d1] and [d2], reach the parser proper
    as the same text up to that underscore. *)
Lemma underscore_stripped a d1 d2 b t :
  is_digit d1 = true -> is_digit d2 = true ->
  to_ascii (a ++ String d1 (String d2 b)) = Some t ->
  exists lx lz,
    list_ascii_of_string (strip_with c_isspace t) = (lx ++ d1 :: d2 :: lz)%list
    /\ exists t',
        to_ascii (a ++ String d1 (String "_" (String d2 b))) = Some t'
        /\ list_ascii_of_string (strip_with c_isspace t')
           = (lx ++ d1 :: "_"%char :: d2 :: lz)%list.
Proof.
  intros H1 H2 Ht.
  destruct (digit_facts d1 H1) as (Ha1 & Hs1 & _).
  destruct (digit_facts d2 H2) as (Ha2 & Hs2 & _).
  apply to_ascii_app_inv in Ht as (a' & y' & Ha & Hy & ->).
  simpl in Hy. rewrite Ha1, Ha2 in Hy.
  destruct (to_ascii b) as [b'|] eqn:Hb; [|discriminate Hy].
  injection Hy as <-.
  exists (list_ascii_of_string (lstrip_with c_isspace a')),
         (list_ascii_of_string (rstrip_with c_isspace b')).
  split.
  - rewrite (strip_with_app_kept c_isspace a' d1 _ Hs1).
    rewrite (rstrip_with_cons_kept c_isspace d2 b' Hs2).
    rewrite list_ascii_app. reflexivity.
  - exists (a' ++ String d1 (String "_" (String d2 b'))). split.
    + apply (to_ascii_app a _ a' _ Ha). simpl. rewrite Ha1, Ha2, Hb. reflexivity.
    + rewrite (strip_with_app_kept c_isspace a' d1 _ Hs1).
      rewrite (rstrip_with_cons_kept c_isspace "_" _ eq_refl).
      rewrite (rstrip_with_cons_kept c_isspace d2 b' Hs2).
      rewrite list_ascii_app. reflexivity.
Qed.

(** An underscore may be put between any two adjacent digits of an
    integer or float literal; the value stays the same. *)
Lemma py_int_underscore a d1 d2 b v :
  is_digit d1 = true -> is_digit d2 = true ->
  py_int (a ++ String d1 (String d2 b)) = inr v ->
  py_int (a ++ String d1 (String "_" (String d2 b))) = inr v.
Proof.
  intros H1 H2. unfold py_int.
  destruct (to_ascii (a ++ String d1 (String d2 b))) as [t|] eqn:Ht; [|discriminate].
  destruct (underscore_stripped a d1 d2 b t H1 H2 Ht)
    as (lx & lz & -> & t' & -> & ->).
  rewrite !(split_sign_app lx d1 _ H1).
  destruct (split_sign lx) as [neg y]. simpl fst. simpl snd.
  unfold digitpart. rewrite (digitpart_from_underscore d1 d2 lz y false H1 H2).
  destruct (digitpart_from false _) as [ds|]; [|discriminate].
  destruct (int_max_str_digits <? length ds)%nat; [discriminate|].
  auto.
Qed.

Lemma py_float_underscore a d1 d2 b v :
  is_digit d1 = true -> is_digit d2 = true ->
  py_float (a ++ String d1 (String d2 b)) = inr v ->
  py_float (a ++ String d1 (String "_" (String d2 b))) = inr v.
Proof.
  intros H1 H2. unfold py_float.
  destruct (to_ascii (a ++ String d1 (String d2 b))) as [t|] eqn:Ht; [|discriminate].
  destruct (underscore_stripped a d1 d2 b t H1 H2 Ht)
    as (lx & lz & -> & t' & -> & ->).
  rewrite (drop_underscores_underscore d1 d2 lz lx None H1 H2).
  destruct (drop_underscores None _) as [u|]; [|discriminate].
  destruct (split_sign u) as [neg body].
  destruct (absfloatvalue neg body); [auto|discriminate].
Qed.

(** The snapshot after a received line, from the tokens and values
    given; the side conditions are closed and settled by evaluation. *)
Lemma line_snapshot w raw t0 t1 t2 t3 t4 a d h c f :
  String.length raw <> 0%nat ->
  tokens raw = [t0; t1; t2; t3; t4] ->
  py_int t0 = inr a -> py_float t1 = inr d -> py_float t2 = inr h ->
  py_float t3 = inr c -> py_float t4 = inr f ->
  latest_data (exec (iteration (line raw)) w)
  = reading (PyInt a) (PyFloat d) (PyFloat h) (PyFloat c) (PyFloat f).
Proof.
  intros Hlen Htok H0 H1 H2 H3 H4. unfold exec.
  rewrite (iteration_publishes (line raw) w (N.of_nat (String.length raw)) raw
             t0 t1 t2 t3 t4 a d h c f); auto.
  intros Hz. apply Hlen. apply Nat2N.inj. exact Hz.
Qed.

Ltac by_evaluation :=
  solve [reflexivity | discriminate | vm_compute; reflexivity].


(** ** Further properties of the reader loop *)

Lemma parse_fails_wrong_count parts :
  length parts <> 5%nat -> parse_fails parts = false.
Proof.
  destruct parts as [|t0 [|t1 [|t2 [|t3 [|t4 [|t5 ts]]]]]]; try reflexivity.
  intros H. exfalso. apply H. reflexivity.
Qed.

(** What an iteration leaves, by whether it is [failing]: the handler
    ran exactly then. *)
Lemma failing_outcome p w w' :
  outcome p w w' ->
  ser w' = ser w
  /\ slept w' = (slept w ++ (if failing p then [1] else []))%list
  /\ exists out, stdout w' = (stdout w ++ out)%list.
Proof.
  intros Hout. unfold failing.
  destruct Hout as [H | e [H | (n & H & Hn & Hr)] | n raw H Hn Hr Hlen
                   | n raw e H Hn Hr Hfe
                   | n raw t0 t1 t2 t3 t4 a d h c f H Hn Hr Htok H0 H1 H2 H3 H4 r];
    rewrite H; try (apply N.eqb_neq in Hn; rewrite Hn); try rewrite Hr; simpl.
  - rewrite app_nil_r. repeat split. exists []. rewrite app_nil_r. reflexivity.
  - repeat split. eexists. reflexivity.
  - repeat split. eexists. reflexivity.
  - rewrite (parse_fails_wrong_count _ Hlen), app_nil_r. repeat split.
    eexists. reflexivity.
  - rewrite (proj2 (parse_fails_first_error _) (ex_intro _ e Hfe)).
    repeat split. eexists. rewrite <- app_assoc. reflexivity.
  - rewrite Htok. simpl. rewrite H0, H1, H2, H3, H4. simpl.
    rewrite app_nil_r. repeat split.
    eexists. rewrite <- app_assoc. reflexivity.
Qed.

Lemma failing_iteration p w :
  ser (exec (iteration p) w) = ser w
  /\ slept (exec (iteration p) w)
     = (slept w ++ (if failing p then [1] else []))%list
  /\ exists out, stdout (exec (iteration p) w) = (stdout w ++ out)%list.
Proof.
  destruct (iteration_outcome p w) as (w' & He & Hout).
  unfold exec. rewrite He. apply (failing_outcome p w w' Hout).
Qed.

(** Running the loop over a script in two parts. *)
Lemma loop_app s1 s2 w :
  loop (s1 ++ s2) w = loop s2 (exec (loop s1) w).
Proof.
  revert w. induction s1 as [|p ps IH]; intros w; [reflexivity|].
  change ((p :: ps) ++ s2)%list with (p :: (ps ++ s2))%list.
  rewrite loop_cons, IH, exec_loop_cons. reflexivity.
Qed.

(** X3. The loop sleeps once, for one second, in each failing
    iteration and never otherwise: after a run over [script] the sleeps
    are the earlier ones followed by as many 1s as the script has
    failing polls. An iteration without data, or with a line of the
    wrong token count, goes straight on. *)
Theorem loop_sleeps script w :
  slept (exec (loop script) w)
  = (slept w ++ repeat 1 (length (List.filter failing script)))%list.
Proof.
  revert w. induction script as [|p ps IH]; intros w.
  - simpl. rewrite app_nil_r. reflexivity.
  - rewrite exec_loop_cons, IH.
    destruct (failing_iteration p w) as (_ & -> & _).
    rewrite <- app_assoc. f_equal.
    simpl List.filter. destruct (failing p); reflexivity.
Qed.

(** X4. The latest reading wins: after a run of the loop,
    [latest_data] is the validated reading of the last poll that has
    one, whatever came before it and whatever unusable polls came
    after it. *)
Theorem latest_reading_wins before p after w r :
  reading_of p = Some r ->
  Forall (fun q => reading_of q = None) after ->
  latest_data (exec (loop (before ++ p :: after)) w) = r.
Proof.
  intros Hp Hq.
  unfold exec at 1. rewrite loop_app. fold (exec (loop (p :: after)) (exec (loop before) w)).
  rewrite exec_loop_cons, (quiet_loop_keeps_snapshot after _ Hq).
  rewrite snapshot_after_iteration, Hp. reflexivity.
Qed.

Lemma latest_reading_wins_witness :
  latest_data
    (exec (loop ([line "1,2,3,4,5"; line "oops"]
                 ++ line "45,12.5,60.2,22.1,71.8" :: [line "x,1,2,3,4"; line ""]))
       started)
  = reading (PyInt 45)
      (PyFloat (float_of_decimal false 125 (-1)))
      (PyFloat (float_of_decimal false 602 (-1)))
      (PyFloat (float_of_decimal false 221 (-1)))
      (PyFloat (float_of_decimal false 718 (-1))).
Proof.
  apply latest_reading_wins.
  - vm_compute. reflexivity.
  - repeat constructor.
Defined.

Lemma py_int_error s e : py_int s = inl e -> e = ValueError "int" s.
Proof.
  unfold py_int. destruct (to_ascii s) as [t|]; [|intros [= <-]; reflexivity].
  destruct (split_sign _) as [neg body].
  destruct (digitpart body) as [ds|]; [|intros [= <-]; reflexivity].
  destruct (int_max_str_digits <? length ds)%nat;
    [intros [= <-]; reflexivity | discriminate].
Qed.

Lemma py_float_error s e : py_float s = inl e -> e = ValueError "float" s.
Proof.
  unfold py_float. destruct (to_ascii s) as [t|]; [|intros [= <-]; reflexivity].
  destruct (drop_underscores None _) as [u|]; [|intros [= <-]; reflexivity].
  destruct (split_sign u) as [neg body].
  destruct (absfloatvalue neg body);
    [discriminate | intros [= <-]; reflexivity].
Qed.

Lemma first_error_origin parts e :
  first_error parts = Some e ->
  exists t0 t1 t2 t3 t4,
    parts = [t0; t1; t2; t3; t4]
    /\ (e = ValueError "int" t0 \/ e = ValueError "float" t1
        \/ e = ValueError "float" t2 \/ e = ValueError "float" t3
        \/ e = ValueError "float" t4).
Proof.
  destruct parts as [|t0 [|t1 [|t2 [|t3 [|t4 [|t5 ts]]]]]]; try discriminate.
  simpl. intros H. exists t0, t1, t2, t3, t4. split; [reflexivity|].
  destruct (py_int t0) as [e0|a] eqn:H0.
  { injection H as <-. left. apply (py_int_error t0 e0 H0). }
  destruct (py_float t1) as [e1|d] eqn:H1.
  { injection H as <-. right. left. apply (py_float_error t1 e1 H1). }
  destruct (py_float t2) as [e2|h] eqn:H2.
  { injection H as <-. do 2 right. left. apply (py_float_error t2 e2 H2). }
  destruct (py_float t3) as [e3|c] eqn:H3.
  { injection H as <-. do 3 right. left. apply (py_float_error t3 e3 H3). }
  destruct (py_float t4) as [e4|f] eqn:H4.
  { injection H as <-. do 4 right. apply (py_float_error t4 e4 H4). }
  discriminate H.
Qed.

(** X2. With standard output writable (the convention of [print]
    above), an exception leaves the [try] block only if [ser.in_waiting]
    or [ser.readline().decode()] raised it, or if it is the
    [ValueError] of the first conversion that fails on a line of five
    tokens: [int] on token 0 or [float] on one of tokens 1 to 4. The
    subscripts [parts[0]] to [parts[4]] never raise an [IndexError] of
    their own. The handler then prints that very exception, whether or
    not it was printed before, and sleeps one second. *)
Theorem handled_exception_origin p w e :
  result (try_block p) w = inl e ->
  (in_waiting p = inl e
   \/ (exists n, in_waiting p = inr n /\ n <> 0%N /\ readline_decode p = inl e)
   \/ exists n raw t0 t1 t2 t3 t4,
       in_waiting p = inr n /\ n <> 0%N /\ readline_decode p = inr raw
       /\ tokens raw = [t0; t1; t2; t3; t4]
       /\ first_error (tokens raw) = Some e
       /\ (e = ValueError "int" t0 \/ e = ValueError "float" t1
           \/ e = ValueError "float" t2 \/ e = ValueError "float" t3
           \/ e = ValueError "float" t4))
  /\ iteration p w
     = (inr tt, paused 1 (logged (SerialError e) (exec (try_block p) w))).
Proof.
  intros Hraise. split.
  - revert Hraise. unfold result, try_block, bind, call.
    destruct (in_waiting p) as [e0|n] eqn:Hi.
    { simpl. intros [= ->]. left. reflexivity. }
    destruct (N.eqb_spec n 0) as [->|Hn]; simpl; [discriminate|].
    destruct (readline_decode p) as [e0|raw] eqn:Hr; simpl.
    { intros [= ->]. right. left. exists n. auto. }
    destruct (split "," (strip raw)) as [|t0 [|t1 [|t2 [|t3 [|t4 [|t5 ts]]]]]]
      eqn:Htok; simpl; try discriminate.
    intros Hfst. right. right.
    assert (Hfe : first_error (tokens raw) = Some e).
    { unfold tokens. rewrite Htok. simpl.
      destruct (py_int t0); [injection Hfst as ->; reflexivity|].
      destruct (py_float t1); [injection Hfst as ->; reflexivity|].
      destruct (py_float t2); [injection Hfst as ->; reflexivity|].
      destruct (py_float t3); [injection Hfst as ->; reflexivity|].
      destruct (py_float t4); [injection Hfst as ->; reflexivity|].
      discriminate Hfst. }
    destruct (first_error_origin _ _ Hfe)
      as (u0 & u1 & u2 & u3 & u4 & Hu & Hor).
    exists n, raw, u0, u1, u2, u3, u4. auto 10.
  - unfold iteration, try_except. unfold result in Hraise. unfold exec.
    destruct (try_block p w) as [[e'|u] w']; simpl in Hraise;
      [injection Hraise as -> | discriminate Hraise].
    reflexivity.
Qed.

Lemma handled_exception_origin_witness :
  let p := line "45,12.5,,22.1,71.8" in
  let w := exec (iteration p) started in
  iteration p w
  = (inr tt,
     paused 1 (logged (SerialError (ValueError "float" ""))
                 (exec (try_block p) w))).
Proof.
  intros p w.
  apply (handled_exception_origin p w (ValueError "float" "")).
  vm_compute. reflexivity.
Defined.

(** ** Whole runs of the process *)

Lemma reachable_loop script : forall w,
  reachable w -> ser w <> None -> reachable (exec (loop script) w).
Proof.
  induction script as [|p ps IH]; intros w Hr Hs; [exact Hr|].
  rewrite exec_loop_cons. apply IH.
  - apply reachable_step; assumption.
  - destruct (failing_iteration p w) as (-> & _). exact Hs.
Qed.

Lemma reachable_started : reachable started.
Proof. apply (reachable_start worker_environ None). reflexivity. Qed.

(** X5. [ser] is bound once and for all, and the sleeps tell the
    story of the process. Without the port, the state never leaves the
    one the module body set up. With it, [ser] is the handle opened at
    115200 baud, the first sleep is the 2-second settle delay and all
    later ones are 1-second pauses. *)
Theorem reachable_sleep_pattern w :
  reachable w ->
  w = {| ser := None; latest_data := zero_reading; stdout := []; slept := [];
       history := [zero_reading] |}
  \/ (ser w = Some the_port /\ exists k, slept w = 2 :: repeat 1 k).
Proof.
  induction 1 as [environ opening w Hload | p w _ IH Hser].
  - destruct (decide (environ !! "WERKZEUG_RUN_MAIN" = Some "true")) as [Ht|Hf].
    + destruct opening as [e|].
      * rewrite (module_body_open_fails environ e Ht) in Hload. discriminate Hload.
      * rewrite (module_body_worker environ Ht) in Hload.
        injection Hload as <-. right. split; [reflexivity|]. exists 0%nat. reflexivity.
    + rewrite (module_body_no_device environ opening Hf) in Hload.
      injection Hload as <-. left. reflexivity.
  - destruct IH as [-> | (Hs & k & Hk)]; [exfalso; apply Hser; reflexivity|].
    right. destruct (failing_iteration p w) as (-> & -> & _).
    split; [exact Hs|]. rewrite Hk.
    destruct (failing p).
    + exists (S k). simpl. f_equal. symmetry. apply repeat_cons.
    + exists k. rewrite app_nil_r. reflexivity.
Qed.

Lemma reachable_sleep_pattern_witness :
  let w := exec (loop [line "x,1,2,3,4"; line "1,2,3,4,5"; line "1,2,3,4,"]) started in
  w = {| ser := None; latest_data := zero_reading; stdout := []; slept := [];
       history := [zero_reading] |}
  \/ (ser w = Some the_port /\ exists k, slept w = 2 :: repeat 1 k).
Proof.
  intros w. apply reachable_sleep_pattern.
  apply reachable_loop; [apply reachable_started | discriminate].
Defined.

Lemma last_parsed_app out o :
  last_parsed (out ++ [o])
  = match o with Parsed d => Some d | _ => last_parsed out end.
Proof. unfold last_parsed. rewrite fold_left_app. reflexivity. Qed.

(** X6. Between iterations the log and the snapshot agree: when the
    module body has run, and after each complete pass through the loop
    body, [latest_data] is the mapping of the last [Parsed] line
    printed, and the zero mapping when none has been printed. (Within a
    pass the assignment comes first and the [Parsed] line after it;
    [reachable] holds the states between passes.) *)
Theorem served_is_last_logged w :
  reachable w ->
  latest_data w = default zero_reading (last_parsed (stdout w)).
Proof.
  induction 1 as [environ opening w Hload | p w _ IH _].
  - destruct (module_body_loaded environ opening w Hload) as (-> & -> & _).
    reflexivity.
  - destruct (iteration_outcome p w) as (w' & He & Hout).
    unfold exec. rewrite He. simpl.
    destruct Hout; unfold paused, logged, stored, exec; simpl;
      rewrite ?last_parsed_app; try exact IH.
    reflexivity.
Qed.

Lemma served_is_last_logged_witness :
  let w := exec (loop [line "1,2,3,4,5"; line "x,1,2,3,4"]) started in
  latest_data w = default zero_reading (last_parsed (stdout w)).
Proof.
  intros w. apply served_is_last_logged.
  apply reachable_loop; [apply reachable_started | discriminate].
Defined.

(** X7. Running the file. Outside the worker process nothing is
    opened and nothing is read: the run ends in the zero state. In the
    worker process, a port that fails to open aborts the run with that
    exception before anything is bound; a port that opens is followed
    by the settle delay and then by the reader loop itself, so the
    [ser is None] test of [read_serial] never stops a reader that
    [main] started. *)
Theorem program_runs_reader_iff_port_open environ opening script :
  (environ !! "WERKZEUG_RUN_MAIN" <> Some "true" ->
   program environ opening script blank
   = (inr tt,
      {| ser := None; latest_data := zero_reading; stdout := []; slept := [];
       history := [zero_reading] |}))
  /\ (environ !! "WERKZEUG_RUN_MAIN" = Some "true" ->
      match opening with
      | Some e => program environ opening script blank = (inl e, blank)
      | None =>
          program environ opening script blank
          = loop script
              {| ser := Some the_port; latest_data := zero_reading;
                 stdout := []; slept := [2]; history := [zero_reading] |}
      end).
Proof.
  split.
  - intros Hf. unfold program, main, bind.
    rewrite (module_body_no_device environ opening Hf).
    rewrite bool_decide_eq_false_2 by exact Hf. reflexivity.
  - intros Ht. destruct opening as [e|]; unfold program, main, bind at 1.
    + rewrite (module_body_open_fails environ e Ht). reflexivity.
    + rewrite (module_body_worker environ Ht).
      rewrite bool_decide_eq_true_2 by exact Ht.
      apply (read_serial_device script _ the_port). reflexivity.
Qed.

Lemma program_runs_reader_iff_port_open_witness :
  program ∅ None [line "1,2,3,4,5"] blank
  = (inr tt,
     {| ser := None; latest_data := zero_reading; stdout := []; slept := [];
       history := [zero_reading] |})
  /\ program worker_environ (Some (SerialException "no such port")) [] blank
     = (inl (SerialException "no such port"), blank)
  /\ program worker_environ None [line "1,2,3,4,5"] blank
     = loop [line "1,2,3,4,5"]
         {| ser := Some the_port; latest_data := zero_reading;
            stdout := []; slept := [2]; history := [zero_reading] |}.
Proof.
  split; [|split].
  - apply (program_runs_reader_iff_port_open ∅ None). discriminate.
  - apply (program_runs_reader_iff_port_open worker_environ
             (Some (SerialException "no such port")) []).
    reflexivity.
  - apply (program_runs_reader_iff_port_open worker_environ None
             [line "1,2,3,4,5"]).
    reflexivity.
Defined.

(** ** Properties of [strip] and [split] as the loop uses them *)

Lemma split_length sep s : length (split sep s) = S (count_char sep s).
Proof.
  induction s as [|c s IH]; [reflexivity|].
  simpl. destruct (Ascii.eqb c sep).
  - simpl. rewrite IH. reflexivity.
  - destruct (split sep s) as [|t ts]; [discriminate IH|].
    simpl in *. exact IH.
Qed.

Section Strip.
Variables (sp : ascii -> bool) (sep : ascii).
Hypothesis sep_kept : sp sep = false.

Lemma stripped_is_not_sep c : sp c = true -> Ascii.eqb c sep = false.
Proof.
  intros Hc. destruct (Ascii.eqb_spec c sep) as [->|]; [|reflexivity].
  rewrite sep_kept in Hc. discriminate Hc.
Qed.

Lemma count_char_lstrip s : count_char sep (lstrip_with sp s) = count_char sep s.
Proof.
  induction s as [|c s IH]; [reflexivity|].
  simpl. destruct (sp c) eqn:Hc; [|reflexivity].
  rewrite (stripped_is_not_sep c Hc). exact IH.
Qed.

Lemma count_char_rstrip s : count_char sep (rstrip_with sp s) = count_char sep s.
Proof.
  induction s as [|c s IH]; [reflexivity|].
  simpl. destruct (rstrip_with sp s) as [|d t].
  - simpl in IH. rewrite <- IH. destruct (sp c) eqn:Hc.
    + rewrite (stripped_is_not_sep c Hc). reflexivity.
    + reflexivity.
  - simpl in *. rewrite IH. reflexivity.
Qed.

Lemma count_char_strip s : count_char sep (strip_with sp s) = count_char sep s.
Proof. unfold strip_with. rewrite count_char_rstrip. apply count_char_lstrip. Qed.
End Strip.

(** X8. The number of tokens is the number of commas in the received
    line plus one, whatever else the line holds: stripping removes no
    comma and splitting cuts at every one. So the loop goes on to parse
    exactly the lines with four commas. *)
Theorem tokens_count_commas raw :
  length (tokens raw) = S (count_char "," raw)
  /\ (validated_reading (tokens raw) <> None -> count_char "," raw = 4%nat).
Proof.
  assert (Hlen : length (tokens raw) = S (count_char "," raw)).
  { unfold tokens, strip. rewrite split_length.
    rewrite (count_char_strip unicode_isspace "," eq_refl). reflexivity. }
  split; [exact Hlen|].
  intros Hv. rewrite <- Nat.succ_inj_wd, <- Hlen.
  destruct (tokens raw) as [|t0 [|t1 [|t2 [|t3 [|t4 [|t5 ts]]]]]];
    solve [reflexivity | exfalso; apply Hv; reflexivity].
Qed.

Lemma tokens_count_commas_witness :
  count_char "," " 45,12.5,60.2,22.1,71.8 " = 4%nat.
Proof.
  apply (tokens_count_commas " 45,12.5,60.2,22.1,71.8 ").
  intros H. apply (f_equal (fun o => bool_decide (is_Some o))) in H.
  vm_compute in H. discriminate H.
Defined.

(** X9. Splitting loses nothing and leaves no separator behind:
    joining the tokens with the separator gives the string back, and no
    token contains the separator. *)
Theorem split_join sep s :
  join sep (split sep s) = s
  /\ Forall (fun t => count_char sep t = 0%nat) (split sep s).
Proof.
  induction s as [|c s [IHj IHc]]; [split; [reflexivity | repeat constructor]|].
  simpl. destruct (Ascii.eqb c sep) eqn:Hc.
  - apply Ascii.eqb_eq in Hc. subst c.
    pose proof (split_length sep s) as Hlen.
    destruct (split sep s) as [|t ts]; [discriminate Hlen|].
    split; [|constructor; [reflexivity | exact IHc]].
    change (join sep ("" :: t :: ts)) with ("" ++ String sep (join sep (t :: ts))).
    rewrite IHj. reflexivity.
  - pose proof (split_length sep s) as Hlen.
    destruct (split sep s) as [|t ts]; [discriminate Hlen|].
    apply Forall_cons_iff in IHc as [Ht Hts]. split.
    + destruct ts as [|t' ts'].
      * simpl in *. rewrite IHj. reflexivity.
      * change (join sep (String c t :: t' :: ts'))
          with (String c (t ++ String sep (join sep (t' :: ts')))).
        change (join sep (t :: t' :: ts'))
          with (t ++ String sep (join sep (t' :: ts'))) in IHj.
        rewrite IHj. reflexivity.
    + constructor; [|exact Hts]. simpl. rewrite Hc. exact Ht.
Qed.

(** X10. Whitespace around the received line does not matter: with a
    line ending of CR LF, of LF, or none, indented or not, the
    iteration does the same thing and prints the same text. *)
Theorem line_padding_is_irrelevant n l raw r w :
  string_forall unicode_isspace l = true ->
  string_forall unicode_isspace r = true ->
  iteration {| in_waiting := inr n; readline_decode := inr (l ++ raw ++ r) |} w
  = iteration {| in_waiting := inr n; readline_decode := inr raw |} w.
Proof.
  intros Hl Hr.
  unfold iteration, try_except, try_block, bind, call. simpl.
  destruct (n =? 0)%N; simpl; [reflexivity|].
  unfold strip. rewrite (strip_with_padding unicode_isspace l raw r Hl Hr).
  reflexivity.
Qed.

Lemma line_padding_is_irrelevant_witness :
  let crlf := String "013" (String "010" "") in
  iteration {| in_waiting := inr 24%N;
               readline_decode := inr ("" ++ "45,12.5,60.2,22.1,71.8" ++ crlf) |}
    started
  = iteration {| in_waiting := inr 24%N;
                 readline_decode := inr "45,12.5,60.2,22.1,71.8" |} started.
Proof.
  intros crlf.
  apply (line_padding_is_irrelevant 24%N "" "45,12.5,60.2,22.1,71.8" crlf started);
    reflexivity.
Defined.

(** ** Properties of [int] and [float] as the loop uses them *)

(** X11. An empty or all-whitespace token is neither an integer nor a
    float literal, so a line of five fields with a blank one is never
    published: it ends in the handler, like any other parse failure. *)
Theorem blank_token_is_rejected :
  (forall t, string_forall c_isspace t = true ->
             py_int t = inl (ValueError "int" t)
             /\ py_float t = inl (ValueError "float" t))
  /\ (forall parts,
         length parts = 5%nat ->
         Exists (fun t => string_forall c_isspace t = true) parts ->
         parse_fails parts = true /\ validated_reading parts = None).
Proof.
  assert (Htok : forall t, string_forall c_isspace t = true ->
                           py_int t = inl (ValueError "int" t)
                           /\ py_float t = inl (ValueError "float" t)).
  { intros t Ht. unfold py_int, py_float.
    rewrite (to_ascii_spaces t Ht). unfold strip_with.
    rewrite (lstrip_with_all_spaces c_isspace t Ht). split; reflexivity. }
  split; [exact Htok|].
  intros parts Hlen Hex.
  destruct parts as [|t0 [|t1 [|t2 [|t3 [|t4 [|t5 ts]]]]]]; try discriminate Hlen.
  simpl.
  repeat (apply Exists_cons in Hex as [Hex|Hex];
          [destruct (Htok _ Hex) as [Hi Hf]; rewrite ?Hi, ?Hf;
           destruct (py_int t0), (py_float t1), (py_float t2), (py_float t3),
             (py_float t4); split; reflexivity|]).
  inversion Hex.
Qed.

Lemma blank_token_is_rejected_witness :
  parse_fails (tokens "45,12.5, ,22.1,71.8") = true
  /\ validated_reading (tokens "45,12.5, ,22.1,71.8") = None.
Proof.
  destruct blank_token_is_rejected as [_ H].
  apply H; [reflexivity|].
  vm_compute. do 2 apply Exists_cons_tl. apply Exists_cons_hd. reflexivity.
Defined.

Lemma digits_to_ascii t : string_forall is_digit t = true -> to_ascii t = Some t.
Proof.
  induction t as [|c t IH]; [reflexivity|].
  simpl. intros [Hc Ht]%andb_true_iff.
  destruct (digit_facts c Hc) as (-> & _). rewrite (IH Ht). reflexivity.
Qed.

Lemma rstrip_with_digits t :
  string_forall is_digit t = true -> rstrip_with c_isspace t = t.
Proof.
  induction t as [|c t IH]; [reflexivity|].
  simpl. intros [Hc Ht]%andb_true_iff. rewrite (IH Ht).
  destruct (digit_facts c Hc) as (_ & -> & _). destruct t; reflexivity.
Qed.

Lemma strip_with_digits t :
  string_forall is_digit t = true -> strip_with c_isspace t = t.
Proof.
  intros Ht. unfold strip_with.
  assert (Hl : lstrip_with c_isspace t = t).
  { destruct t as [|c t]; [reflexivity|]. simpl in *.
    apply andb_true_iff in Ht as [Hc _].
    destruct (digit_facts c Hc) as (_ & -> & _). reflexivity. }
  rewrite Hl. apply rstrip_with_digits, Ht.
Qed.

Lemma string_forall_list f t :
  string_forall f t = forallb f (list_ascii_of_string t).
Proof. induction t as [|c t IH]; [reflexivity|]. simpl. rewrite IH. reflexivity. Qed.

Lemma list_ascii_length t :
  length (list_ascii_of_string t) = String.length t.
Proof. induction t as [|c t IH]; [reflexivity|]. simpl. rewrite IH. reflexivity. Qed.

Lemma digitpart_from_digits ds : forall b,
  forallb is_digit ds = true -> (b = true \/ ds <> []) ->
  digitpart_from b ds = Some ds.
Proof.
  induction ds as [|c ds IH]; intros b Hd Hb.
  - destruct Hb as [-> | Hne]; [reflexivity | contradiction].
  - simpl in *. apply andb_true_iff in Hd as [Hc Hds]. rewrite Hc.
    rewrite (IH true Hds (or_introl eq_refl)). reflexivity.
Qed.

Lemma py_int_digits t :
  string_forall is_digit t = true -> t <> "" ->
  py_int t
  = (if (int_max_str_digits <? String.length t)%nat
     then inl (ValueError "int" t)
     else inr (decimal_value (list_ascii_of_string t))).
Proof.
  intros Hd Hne.
  unfold py_int. rewrite (digits_to_ascii t Hd), (strip_with_digits t Hd).
  assert (Hs : split_sign (list_ascii_of_string t) = (false, list_ascii_of_string t)).
  { destruct t as [|c t]; [contradiction|]. simpl in Hd |- *.
    apply andb_true_iff in Hd as [Hc _].
    destruct (digit_facts c Hc) as (_ & _ & -> & -> & _). reflexivity. }
  rewrite Hs. unfold digitpart.
  rewrite (digitpart_from_digits (list_ascii_of_string t) false).
  - rewrite list_ascii_length. reflexivity.
  - rewrite <- string_forall_list. exact Hd.
  - right. destruct t; [contradiction | discriminate].
Qed.

(** X12. A token of plain digits is read as its decimal value; one of
    more than 4300 digits is rejected whatever its value; and a zero in
    front changes nothing (there is no octal reading) as long as the
    token stays within that length. *)
Theorem plain_digits_value t :
  string_forall is_digit t = true -> t <> "" ->
  py_int t
  = (if (int_max_str_digits <? String.length t)%nat
     then inl (ValueError "int" t)
     else inr (decimal_value (list_ascii_of_string t)))
  /\ ((String.length t < int_max_str_digits)%nat -> py_int ("0" ++ t) = py_int t).
Proof.
  intros Hd Hne. split; [apply (py_int_digits t Hd Hne)|].
  intros Hlen.
  rewrite (py_int_digits t Hd Hne).
  change ("0" ++ t) with (String "0" t).
  rewrite (py_int_digits (String "0" t)); [|simpl; exact Hd | discriminate].
  change (String.length (String "0" t)) with (S (String.length t)).
  assert (H1 : (int_max_str_digits <? S (String.length t))%nat = false)
    by (apply Nat.ltb_ge; exact Hlen).
  assert (H2 : (int_max_str_digits <? String.length t)%nat = false)
    by (apply Nat.ltb_ge, Nat.lt_le_incl, Hlen).
  rewrite H1, H2. reflexivity.
Qed.

Lemma plain_digits_value_witness :
  py_int "045" = inr 45 /\ py_int ("0" ++ "045") = py_int "045".
Proof.
  destruct (plain_digits_value "045") as [Hv Hz]; [reflexivity | discriminate |].
  split; [exact Hv|]. apply Hz. apply Nat.ltb_lt. reflexivity.
Defined.

(** Characters survive the steps before the parser proper: what holds
    of every character of the stripped text and of the whitespace
    holds of every character of the text. *)
Lemma string_forall_lstrip f sp t :
  (forall c, sp c = true -> f c = true) ->
  string_forall f (lstrip_with sp t) = true -> string_forall f t = true.
Proof.
  intros Hsp. induction t as [|c t IH]; [reflexivity|].
  simpl. destruct (sp c) eqn:Hc; [|auto].
  intros H. rewrite (Hsp c Hc), (IH H). reflexivity.
Qed.

Lemma string_forall_rstrip f sp t :
  (forall c, sp c = true -> f c = true) ->
  string_forall f (rstrip_with sp t) = true -> string_forall f t = true.
Proof.
  intros Hsp. induction t as [|c t IH]; [reflexivity|].
  simpl. destruct (rstrip_with sp t) as [|d u].
  - destruct (sp c) eqn:Hc.
    + intros _. rewrite (Hsp c Hc), (IH eq_refl). reflexivity.
    + simpl. intros H. apply andb_true_iff in H as [-> _].
      rewrite (IH eq_refl). reflexivity.
  - simpl. intros H. apply andb_true_iff in H as [-> H].
    rewrite (IH H). reflexivity.
Qed.

Lemma string_forall_strip f sp t :
  (forall c, sp c = true -> f c = true) ->
  string_forall f (strip_with sp t) = true -> string_forall f t = true.
Proof.
  intros Hsp H. apply (string_forall_lstrip f sp t Hsp).
  apply (string_forall_rstrip f sp _ Hsp). exact H.
Qed.

Lemma string_forall_to_ascii f g s t :
  (forall c c', to_ascii_char c = Some c' -> g c' = true -> f c = true) ->
  to_ascii s = Some t -> string_forall g t = true -> string_forall f s = true.
Proof.
  intros Hfg. revert t. induction s as [|c s IH]; intros t; [reflexivity|].
  simpl. destruct (to_ascii_char c) as [c'|] eqn:Hc; [|discriminate].
  destruct (to_ascii s) as [u|]; [|discriminate].
  intros [= <-]. simpl. intros [Hg Hu]%andb_true_iff.
  rewrite (Hfg c c' Hc Hg), (IH u eq_refl Hu). reflexivity.
Qed.

Lemma digitpart_from_chars s : forall b ds,
  digitpart_from b s = Some ds ->
  forallb (fun c => is_digit c || Ascii.eqb c "_") s = true.
Proof.
  induction s as [|c s IH]; intros b ds; [reflexivity|].
  simpl. destruct (is_digit c).
  - destruct (digitpart_from true s) as [ds'|] eqn:Hd; [|discriminate].
    intros _. simpl. apply (IH true ds' Hd).
  - destruct (Ascii.eqb c "_"); [|discriminate].
    destruct b; [|discriminate]. intros Hd. simpl. apply (IH false ds Hd).
Qed.

Lemma split_sign_chars f s neg body :
  f "+"%char = true -> f "-"%char = true ->
  split_sign s = (neg, body) -> forallb f body = true -> forallb f s = true.
Proof.
  intros Hp Hm. destruct s as [|c s]; [intros [= <- <-]; reflexivity|].
  simpl. destruct (Ascii.eqb_spec c "-") as [->|_].
  { intros [= <- <-] Hb. rewrite Hm. exact Hb. }
  destruct (Ascii.eqb_spec c "+") as [->|_].
  { intros [= <- <-] Hb. rewrite Hp. exact Hb. }
  intros [= <- <-] Hb. exact Hb.
Qed.

Lemma int_char_to_ascii c c' :
  to_ascii_char c = Some c' ->
  is_digit c' || Ascii.eqb c' "_" || Ascii.eqb c' "+" || Ascii.eqb c' "-"
  || c_isspace c' = true ->
  int_char c = true.
Proof.
  intros Hc.
  destruct c as [[] [] [] [] [] [] [] []]; vm_compute in Hc;
    (discriminate Hc || (injection Hc as <-; vm_compute; intros H;
                         solve [reflexivity | discriminate H])).
Qed.

(** X13. An integer literal holds nothing but digits, underscores, a
    sign and whitespace: a token with any other character, such as a
    decimal point, an exponent or a hexadecimal prefix, is rejected by
    [int], and a line with such an angle token is not published. *)
Theorem angle_token_characters t0 :
  string_forall int_char t0 = false ->
  py_int t0 = inl (ValueError "int" t0)
  /\ forall t1 t2 t3 t4,
      parse_fails [t0; t1; t2; t3; t4] = true
      /\ validated_reading [t0; t1; t2; t3; t4] = None.
Proof.
  intros Hbad.
  assert (Hi : py_int t0 = inl (ValueError "int" t0)).
  { destruct (py_int t0) as [e|z] eqn:Hpy.
    { rewrite (py_int_error t0 e Hpy). reflexivity. }
    exfalso. revert Hpy. unfold py_int.
    destruct (to_ascii t0) as [t|] eqn:Ht; [|discriminate].
    destruct (split_sign _) as [neg body] eqn:Hs.
    destruct (digitpart body) as [ds|] eqn:Hd; [|discriminate].
    intros _.
    pose (g := fun c => is_digit c || Ascii.eqb c "_" || Ascii.eqb c "+"
                        || Ascii.eqb c "-" || c_isspace c).
    assert (Hg : string_forall g t = true).
    { apply (string_forall_strip g c_isspace).
      - intros c Hc. unfold g. rewrite Hc. apply orb_true_r.
      - rewrite string_forall_list.
        apply (split_sign_chars g _ neg body eq_refl eq_refl Hs).
        apply (digitpart_from_chars body false ds) in Hd.
        rewrite forallb_forall in Hd |- *. intros c Hc. unfold g.
        rewrite (Hd c Hc). reflexivity. }
    rewrite (string_forall_to_ascii int_char g t0 t int_char_to_ascii Ht Hg) in Hbad.
    discriminate Hbad. }
  split; [exact Hi|].
  intros t1 t2 t3 t4. simpl. rewrite Hi. split; reflexivity.
Qed.

Lemma angle_token_characters_witness :
  py_int "45.0" = inl (ValueError "int" "45.0")
  /\ parse_fails (tokens "45.0,12.5,60.2,22.1,71.8") = true.
Proof.
  destruct (angle_token_characters "45.0" eq_refl) as [Hi Hl].
  split; [exact Hi|]. apply (Hl "12.5" "60.2" "22.1" "71.8").
Defined.

Lemma float_of_decimal_opp m e10 :
  float_of_decimal true m e10 = SFopp (float_of_decimal false m e10).
Proof.
  unfold float_of_decimal. destruct (Z.eqb m 0); [reflexivity|].
  destruct (SFdiv_core_binary _ _ _ _ _ _) as [[q e] l].
  unfold binary_round_aux.
  destruct (shr_fexp _ _ q e l) as [mrs' e'].
  destruct (shr_fexp _ _ _ e' loc_Exact) as [mrs'' e''].
  destruct (shr_m mrs''); [reflexivity| |reflexivity].
  destruct (Z.leb _ _); reflexivity.
Qed.

Lemma absfloatvalue_opp body :
  absfloatvalue true body = option_map SFopp (absfloatvalue false body).
Proof.
  unfold absfloatvalue.
  destruct (_ || _); [reflexivity|].
  destruct (String.eqb _ "nan"); [reflexivity|].
  destruct (decimal_literal body) as [[m e10]|]; [|reflexivity].
  simpl. rewrite float_of_decimal_opp. reflexivity.
Qed.

(** X14. On a float literal that starts with a digit, a [+] in front
    changes nothing and a [-] in front negates the value exactly: the
    two signs of a magnitude round to mirror-image floats. *)
Theorem py_float_sign_negates t v :
  starts_with_digit t = true -> py_float t = inr v ->
  py_float ("+" ++ t) = inr v /\ py_float ("-" ++ t) = inr (SFopp v).
Proof.
  intros Hd. unfold py_float.
  destruct (to_ascii t) as [t'|] eqn:Ht; [|discriminate].
  destruct (signed_literal_stripped "+" t t' (or_introl eq_refl) Hd Ht)
    as (c & r & Hc & Hs & Hp & Hps).
  destruct (signed_literal_stripped "-" t t' (or_intror eq_refl) Hd Ht)
    as (c' & r' & _ & Hs' & Hm & Hms).
  rewrite Hs' in Hs. injection Hs as -> ->.
  destruct (digit_facts c Hc) as (_ & _ & Hm1 & Hp1 & Hu).
  change ("+" ++ t) with (String "+" t). change ("-" ++ t) with (String "-" t).
  rewrite Hp, Hps, Hm, Hms, Hs'.
  cbn [list_ascii_of_string drop_underscores Ascii.eqb Bool.eqb andb negb].
  rewrite Hu.
  destruct (drop_underscores (Some c) _) as [u|]; [|discriminate].
  cbn [split_sign]. rewrite Hm1, Hp1.
  cbn [split_sign Ascii.eqb Bool.eqb].
  rewrite absfloatvalue_opp.
  destruct (absfloatvalue false (c :: u)) as [f|]; [|discriminate].
  intros [= <-]. split; reflexivity.
Qed.

Lemma py_float_sign_negates_witness :
  py_float ("+" ++ "12.5") = inr (float_of_decimal false 125 (-1))
  /\ py_float ("-" ++ "12.5") = inr (SFopp (float_of_decimal false 125 (-1))).
Proof.
  apply (py_float_sign_negates "12.5"); vm_compute; reflexivity.
Defined.

(** *** Where NaN can come from *)

Lemma shr_1_nonneg mrs : 0 <= shr_m mrs -> 0 <= shr_m (shr_1 mrs).
Proof.
  destruct mrs as [m r s]. simpl.
  destruct m as [|[p|p|]|[p|p|]]; simpl; lia.
Qed.

Lemma iter_shr_1_nonneg p : forall mrs,
  0 <= shr_m mrs -> 0 <= shr_m (SpecFloat.iter_pos shr_1 p mrs).
Proof.
  induction p as [p IH|p IH|]; intros mrs H; simpl.
  - apply IH, IH, shr_1_nonneg, H.
  - apply IH, IH, H.
  - apply shr_1_nonneg, H.
Qed.

Lemma shr_fexp_nonneg m e l :
  0 <= m -> 0 <= shr_m (fst (shr_fexp prec emax m e l)).
Proof.
  intros H. unfold shr_fexp, shr.
  assert (H0 : 0 <= shr_m (shr_record_of_loc m l))
    by (destruct l as [|[]]; exact H).
  destruct (_ - e); simpl; [exact H0 | | exact H0].
  apply iter_shr_1_nonneg, H0.
Qed.

Lemma binary_round_aux_not_nan s m e l :
  0 <= m -> binary_round_aux prec emax s m e l <> S754_nan.
Proof.
  intros H. unfold binary_round_aux.
  pose proof (shr_fexp_nonneg m e l H) as H1.
  destruct (shr_fexp prec emax m e l) as [mrs' e']. simpl in H1.
  assert (H2 : 0 <= round_nearest_even (shr_m mrs') (loc_of_shr_record mrs')).
  { unfold round_nearest_even.
    destruct (loc_of_shr_record mrs') as [|[]]; try exact H1; [|lia].
    destruct (Z.even _); lia. }
  pose proof (shr_fexp_nonneg _ e' loc_Exact H2) as H3.
  destruct (shr_fexp prec emax _ e' loc_Exact) as [mrs'' e'']. simpl in H3.
  destruct (shr_m mrs''); [discriminate | | lia].
  destruct (Z.leb _ _); discriminate.
Qed.

Lemma float_of_decimal_not_nan neg m e10 :
  0 <= m -> float_of_decimal neg m e10 <> S754_nan.
Proof.
  intros Hm. unfold float_of_decimal.
  destruct (Z.eqb m 0); [discriminate|].
  unfold SFdiv_core_binary.
  set (num := m * 10 ^ Z.max e10 0).
  set (den := 10 ^ Z.max (- e10) 0).
  assert (Hnum : 0 <= num) by (subst num; apply Z.mul_nonneg_nonneg; [lia|];
                               apply Z.pow_nonneg; lia).
  assert (Hden : 0 < den) by (subst den; apply Z.pow_pos_nonneg; lia).
  match goal with
  | |- context [Z.div_eucl ?a den] =>
      assert (Ha : 0 <= a);
      [| pose proof (Z.div_pos a den Ha Hden) as Hq; unfold Z.div in Hq;
         destruct (Z.div_eucl a den) as [q r] ]
  end.
  - destruct (_ - _); [exact Hnum | apply Z.shiftl_nonneg; exact Hnum | lia].
  - apply binary_round_aux_not_nan. exact Hq.
Qed.

Lemma digit_value_nonneg c : is_digit c = true -> 0 <= digit_value c.
Proof.
  unfold is_digit, digit_value. intros [H _]%andb_true_iff.
  apply N.leb_le in H. lia.
Qed.

Lemma decimal_value_nonneg ds : forallb is_digit ds = true -> 0 <= decimal_value ds.
Proof.
  unfold decimal_value.
  assert (G : forall acc, 0 <= acc ->
                forallb is_digit ds = true ->
                0 <= fold_left (fun a c => 10 * a + digit_value c) ds acc).
  { induction ds as [|c ds IH]; intros a Ha Hd; [exact Ha|].
    simpl in *. apply andb_true_iff in Hd as [Hc Hds].
    apply IH; [|exact Hds]. pose proof (digit_value_nonneg c Hc). lia. }
  intros Hd. apply G; [lia | exact Hd].
Qed.

Lemma take_digits_digits s ds r :
  take_digits s = (ds, r) -> forallb is_digit ds = true.
Proof.
  revert ds r. induction s as [|c s IH]; intros ds r; [intros [= <- <-]; reflexivity|].
  simpl. destruct (is_digit c) eqn:Hc; [|intros [= <- <-]; reflexivity].
  destruct (take_digits s) as [ds' r']. intros [= <- <-]. simpl.
  rewrite Hc. apply (IH ds' r' eq_refl).
Qed.

Lemma decimal_literal_nonneg body m e10 :
  decimal_literal body = Some (m, e10) -> 0 <= m.
Proof.
  unfold decimal_literal.
  destruct (take_digits body) as [ip r] eqn:Hip.
  assert (Hfp : forall fp r', (match r with
                               | c :: r1 => if Ascii.eqb c "." then take_digits r1
                                            else ([], r)
                               | [] => ([], [])
                               end) = (fp, r') -> forallb is_digit fp = true).
  { intros fp r'. destruct r as [|c r1]; [intros [= <- <-]; reflexivity|].
    destruct (Ascii.eqb c "."); [apply take_digits_digits|].
    intros [= <- <-]. reflexivity. }
  destruct (match r with [] => _ | _ => _ end) as [fp r'] eqn:Hr.
  specialize (Hfp fp r' eq_refl).
  pose proof (take_digits_digits body ip r Hip) as Hipd.
  assert (Hall : forallb is_digit (ip ++ fp)%list = true)
    by (rewrite forallb_app, Hipd, Hfp; reflexivity).
  destruct (ip ++ fp)%list as [|d ds] eqn:Hds; [discriminate|].
  destruct (exponent r'); [|discriminate].
  intros [= <- _]. apply decimal_value_nonneg, Hall.
Qed.

(** What holds of every character of a text holds of every character
    of what stripping, splitting and the steps before the parser proper
    leave of it. *)
Lemma lstrip_keeps f sp t :
  string_forall f t = true -> string_forall f (lstrip_with sp t) = true.
Proof.
  induction t as [|c t IH]; [reflexivity|].
  simpl. destruct (sp c); [|auto].
  intros [_ H]%andb_true_iff. exact (IH H).
Qed.

Lemma rstrip_keeps f sp t :
  string_forall f t = true -> string_forall f (rstrip_with sp t) = true.
Proof.
  induction t as [|c t IH]; [reflexivity|].
  simpl. intros [Hc H]%andb_true_iff. specialize (IH H).
  destruct (rstrip_with sp t) as [|d u].
  - destruct (sp c); [reflexivity|]. simpl. rewrite Hc. reflexivity.
  - simpl in *. rewrite Hc. exact IH.
Qed.

Lemma strip_keeps f sp t :
  string_forall f t = true -> string_forall f (strip_with sp t) = true.
Proof. intros H. apply rstrip_keeps, lstrip_keeps, H. Qed.

Lemma split_keeps f sep s :
  string_forall f s = true ->
  Forall (fun t => string_forall f t = true) (split sep s).
Proof.
  induction s as [|c s IH]; [repeat constructor|].
  simpl. intros [Hc H]%andb_true_iff. specialize (IH H).
  destruct (Ascii.eqb c sep); [constructor; [reflexivity | exact IH]|].
  destruct (split sep s) as [|t ts]; [repeat constructor; simpl; rewrite Hc; reflexivity|].
  apply Forall_cons_iff in IH as [Ht Hts].
  constructor; [|exact Hts]. simpl. rewrite Hc. exact Ht.
Qed.

Lemma to_ascii_keeps f s t :
  (forall c c', to_ascii_char c = Some c' -> f c = true -> f c' = true) ->
  to_ascii s = Some t -> string_forall f s = true -> string_forall f t = true.
Proof.
  intros Hf. revert t. induction s as [|c s IH]; intros t; [intros [= <-]; reflexivity|].
  simpl. destruct (to_ascii_char c) as [c'|] eqn:Hc; [|discriminate].
  destruct (to_ascii s) as [u|]; [|discriminate].
  intros [= <-] [Hfc H]%andb_true_iff. simpl.
  rewrite (Hf c c' Hc Hfc), (IH u eq_refl H). reflexivity.
Qed.

Lemma drop_underscores_keeps f s : forall prev u,
  drop_underscores prev s = Some u -> forallb f s = true -> forallb f u = true.
Proof.
  induction s as [|c s IH]; intros prev u.
  - simpl. destruct prev as [p|]; [destruct (Ascii.eqb p "_"); [discriminate|]|];
      intros [= <-]; reflexivity.
  - simpl. destruct (Ascii.eqb c "_").
    + destruct (match prev with Some p => is_digit p | None => false end);
        [|discriminate].
      intros Hd [_ H]%andb_true_iff. apply (IH _ _ Hd H).
    + destruct (_ && _); [discriminate|].
      destruct (drop_underscores (Some c) s) as [t|] eqn:Hd; [|discriminate].
      intros [= <-] [Hc H]%andb_true_iff. simpl. rewrite Hc. apply (IH _ _ Hd H).
Qed.

Lemma split_sign_keeps f s neg body :
  split_sign s = (neg, body) -> forallb f s = true -> forallb f body = true.
Proof.
  destruct s as [|c s]; [intros [= <- <-]; reflexivity|].
  simpl. destruct (Ascii.eqb c "-"); [intros [= <- <-] [_ H]%andb_true_iff; exact H|].
  destruct (Ascii.eqb c "+"); [intros [= <- <-] [_ H]%andb_true_iff; exact H|].
  intros [= <- <-] H. exact H.
Qed.

Lemma not_n_to_ascii c c' :
  to_ascii_char c = Some c' -> not_n c = true -> not_n c' = true.
Proof.
  intros Hc.
  destruct c as [[] [] [] [] [] [] [] []]; vm_compute in Hc;
    (discriminate Hc || (injection Hc as <-; vm_compute; intros H;
                         solve [reflexivity | discriminate H])).
Qed.

(** A token without the letter [n] is never read as NaN. *)
Lemma py_float_nan_needs_n t :
  string_forall not_n t = true -> py_float t <> inr S754_nan.
Proof.
  intros Hn. unfold py_float.
  destruct (to_ascii t) as [t'|] eqn:Ht; [|discriminate].
  destruct (drop_underscores None _) as [u|] eqn:Hu; [|discriminate].
  destruct (split_sign u) as [neg body] eqn:Hs.
  assert (Hbody : forallb not_n body = true).
  { apply (split_sign_keeps not_n u neg body Hs).
    apply (drop_underscores_keeps not_n _ None u Hu).
    rewrite <- string_forall_list. apply strip_keeps.
    apply (to_ascii_keeps not_n t t' not_n_to_ascii Ht Hn). }
  unfold absfloatvalue.
  destruct (_ || _); [discriminate|].
  destruct (String.eqb (lower body) "nan") eqn:Hw.
  - exfalso. apply String.eqb_eq in Hw. unfold lower in Hw.
    destruct body as [|c body]; [discriminate Hw|].
    simpl in Hw, Hbody. injection Hw as Hc _.
    apply andb_true_iff in Hbody as [Hnc _].
    unfold not_n in Hnc. rewrite Hc in Hnc. discriminate Hnc.
  - destruct (decimal_literal body) as [[m e10]|] eqn:Hd; [|discriminate].
    intros [= H]. revert H. apply float_of_decimal_not_nan.
    apply (decimal_literal_nonneg body m e10 Hd).
Qed.

(** X15. NaN has to be spelled out: a received line without the letter
    [n] (in either case) never yields a reading with a NaN in it, no
    matter how large, small or long its numbers are. *)
Theorem nan_needs_the_letter_n raw r :
  string_forall not_n raw = true ->
  validated_reading (tokens raw) = Some r ->
  exists a d h c f,
    r = reading (PyInt a) (PyFloat d) (PyFloat h) (PyFloat c) (PyFloat f)
    /\ d <> S754_nan /\ h <> S754_nan /\ c <> S754_nan /\ f <> S754_nan.
Proof.
  intros Hn Hv.
  apply validated_reading_inv in Hv
    as (t0 & t1 & t2 & t3 & t4 & a & d & h & c & f & Ht & _ & H1 & H2 & H3 & H4 & ->).
  pose proof (split_keeps not_n "," (strip raw)
                (strip_keeps not_n unicode_isspace raw Hn)) as Hall.
  fold (tokens raw) in Hall. rewrite Ht in Hall.
  apply Forall_cons_iff in Hall as [_ Hall].
  apply Forall_cons_iff in Hall as [Hn1 Hall].
  apply Forall_cons_iff in Hall as [Hn2 Hall].
  apply Forall_cons_iff in Hall as [Hn3 Hall].
  apply Forall_cons_iff in Hall as [Hn4 _].
  exists a, d, h, c, f. split; [reflexivity|].
  repeat split; intros ->.
  - apply (py_float_nan_needs_n t1 Hn1 H1).
  - apply (py_float_nan_needs_n t2 Hn2 H2).
  - apply (py_float_nan_needs_n t3 Hn3 H3).
  - apply (py_float_nan_needs_n t4 Hn4 H4).
Qed.

Lemma nan_needs_the_letter_n_witness :
  exists a d h c f,
    reading (PyInt 45) (PyFloat (S754_infinity false))
      (PyFloat (float_of_decimal false 602 (-1)))
      (PyFloat (float_of_decimal false 5 (-324)))
      (PyFloat (S754_infinity true))
    = reading (PyInt a) (PyFloat d) (PyFloat h) (PyFloat c) (PyFloat f)
    /\ d <> S754_nan /\ h <> S754_nan /\ c <> S754_nan /\ f <> S754_nan.
Proof.
  apply (nan_needs_the_letter_n "45,1e999,60.2,5e-324,-1e999");
    vm_compute; reflexivity.
Defined.

(** *** Exponents *)

Lemma literal_char_facts c :
  literal_char c = true ->
  to_ascii_char c = Some c /\ c_isspace c = false /\ Ascii.eqb c "_" = false.
Proof.
  destruct c as [[] [] [] [] [] [] [] []]; vm_compute; intros H;
    solve [discriminate H | repeat split].
Qed.

Lemma plain_char_facts c :
  plain_char c = true ->
  literal_char c = true /\ tolower c = c
  /\ Ascii.eqb c "i" = false /\ Ascii.eqb c "n" = false
  /\ Ascii.eqb c "+" = false /\ Ascii.eqb c "-" = false
  /\ Ascii.eqb (tolower c) "e" = false
  /\ (is_digit c = false -> Ascii.eqb c "." = true).
Proof.
  destruct c as [[] [] [] [] [] [] [] []]; vm_compute; intros H;
    solve [discriminate H | repeat split; intros H'; solve [reflexivity | discriminate H']].
Qed.

Lemma literal_to_ascii s : string_forall literal_char s = true -> to_ascii s = Some s.
Proof.
  induction s as [|c s IH]; [reflexivity|].
  simpl. intros [Hc Hs]%andb_true_iff.
  destruct (literal_char_facts c Hc) as (-> & _). rewrite (IH Hs). reflexivity.
Qed.

Lemma literal_strip s :
  string_forall literal_char s = true -> strip_with c_isspace s = s.
Proof.
  intros Hs. unfold strip_with.
  assert (Hl : lstrip_with c_isspace s = s).
  { destruct s as [|c s]; [reflexivity|]. simpl in *.
    apply andb_true_iff in Hs as [Hc _].
    destruct (literal_char_facts c Hc) as (_ & -> & _). reflexivity. }
  rewrite Hl. clear Hl.
  induction s as [|c s IH]; [reflexivity|].
  simpl in Hs. apply andb_true_iff in Hs as [Hc Hs].
  destruct (literal_char_facts c Hc) as (_ & Hsp & _).
  rewrite (rstrip_with_cons_kept c_isspace c s Hsp), (IH Hs). reflexivity.
Qed.

Lemma literal_drop_underscores l : forall prev,
  forallb literal_char l = true ->
  match prev with Some p => Ascii.eqb p "_" = false | None => True end ->
  drop_underscores prev l = Some l.
Proof.
  induction l as [|c l IH]; intros prev Hl Hp.
  - simpl. destruct prev as [p|]; [rewrite Hp|]; reflexivity.
  - simpl in Hl. apply andb_true_iff in Hl as [Hc Hl].
    destruct (literal_char_facts c Hc) as (_ & _ & Hu).
    simpl. rewrite Hu.
    assert (Hq : match prev with Some p => Ascii.eqb p "_" | None => false end = false)
      by (destruct prev; [exact Hp | reflexivity]).
    rewrite Hq. simpl. rewrite (IH (Some c) Hl Hu). reflexivity.
Qed.

(** [float] on a text of literal characters that starts with a digit
    or the point: the decimal literal decides. *)
Lemma py_float_literal s :
  string_forall literal_char s = true ->
  string_forall plain_char (substring 0 1 s) = true -> s <> "" ->
  py_float s
  = match decimal_literal (list_ascii_of_string s) with
    | Some (m, e10) => inr (float_of_decimal false m e10)
    | None => inl (ValueError "float" s)
    end.
Proof.
  intros Hs Hhead Hne. unfold py_float.
  rewrite (literal_to_ascii s Hs), (literal_strip s Hs).
  rewrite (literal_drop_underscores _ None); [| rewrite <- string_forall_list; exact Hs | exact I].
  destruct s as [|c s]; [contradiction|].
  assert (Hc : plain_char c = true).
  { simpl in Hhead. destruct s; simpl in Hhead;
      apply andb_true_iff in Hhead as [Hc _]; exact Hc. }
  destruct (plain_char_facts c Hc) as (_ & Hlow & Hi & Hn & Hplus & Hminus & _).
  simpl list_ascii_of_string. cbn [split_sign]. rewrite Hminus, Hplus.
  unfold absfloatvalue, lower. simpl map. simpl string_of_list_ascii.
  rewrite Hlow. simpl String.eqb. rewrite Hi, Hn. simpl.
  destruct (decimal_literal _) as [[m e10]|]; reflexivity.
Qed.

Lemma take_digits_app_stop a c x :
  is_digit c = false ->
  take_digits (a ++ c :: x)%list
  = (fst (take_digits a), (snd (take_digits a) ++ c :: x)%list).
Proof.
  intros Hc. induction a as [|d a IH].
  - simpl. rewrite Hc. reflexivity.
  - simpl. destruct (is_digit d); [|reflexivity].
    rewrite IH. destruct (take_digits a). reflexivity.
Qed.

Lemma take_digits_all ds : forallb is_digit ds = true -> take_digits ds = (ds, []).
Proof.
  induction ds as [|d ds IH]; [reflexivity|].
  simpl. intros [Hd Hds]%andb_true_iff. rewrite Hd, (IH Hds). reflexivity.
Qed.

Lemma take_digits_rest f s ds r :
  take_digits s = (ds, r) -> forallb f s = true ->
  forallb f r = true
  /\ match r with c :: _ => is_digit c = false | [] => True end.
Proof.
  revert ds r. induction s as [|c s IH]; intros ds r.
  - intros [= <- <-] _. split; [reflexivity | exact I].
  - simpl. destruct (is_digit c) eqn:Hc.
    + destruct (take_digits s) as [ds' r']. intros [= <- <-] [_ Hs]%andb_true_iff.
      apply (IH ds' r' eq_refl Hs).
    + intros [= <- <-] Hs. split; [exact Hs | exact Hc].
Qed.

Lemma exponent_value mark es :
  Ascii.eqb (tolower mark) "e" = true ->
  forallb is_digit es = true -> es <> [] ->
  exponent (mark :: es) = Some (decimal_value es)
  /\ exponent (mark :: "+"%char :: es) = Some (decimal_value es)
  /\ exponent (mark :: "-"%char :: es) = Some (- decimal_value es).
Proof.
  intros Hm Hes Hne. unfold exponent. rewrite Hm.
  cbn [split_sign Ascii.eqb Bool.eqb].
  rewrite (take_digits_all es Hes).
  destruct es as [|d es]; [contradiction|].
  pose proof Hes as Hall.
  simpl in Hes. apply andb_true_iff in Hes as [Hd _].
  destruct (digit_facts d Hd) as (_ & _ & Hminus & Hplus & _).
  cbn [split_sign]. rewrite Hminus, Hplus.
  rewrite (take_digits_all (d :: es) Hall).
  repeat split.
Qed.

(** An exponent after a plain decimal number adds to its decimal
    exponent and leaves the digits alone. *)
Lemma decimal_literal_suffix body m e10 c x E :
  forallb plain_char body = true ->
  decimal_literal body = Some (m, e10) ->
  is_digit c = false -> Ascii.eqb c "." = false ->
  exponent (c :: x) = Some E ->
  decimal_literal (body ++ c :: x)%list = Some (m, e10 + E).
Proof.
  intros Hb Hd Hc Hdot HE. unfold decimal_literal in *.
  rewrite (take_digits_app_stop body c x Hc).
  destruct (take_digits body) as [ip r] eqn:Hip. simpl fst. simpl snd.
  destruct (take_digits_rest plain_char body ip r Hip Hb) as [Hr Hhead].
  destruct r as [|c0 r1].
  - simpl app. cbv beta iota. rewrite Hdot, HE.
    destruct (ip ++ [])%list as [|d ds]; [discriminate Hd|].
    simpl in Hd. injection Hd as <- <-. f_equal. f_equal. simpl. lia.
  - simpl in Hr. apply andb_true_iff in Hr as [Hc0 Hr1].
    destruct (plain_char_facts c0 Hc0) as (_ & _ & _ & _ & _ & _ & _ & Hpoint).
    specialize (Hpoint Hhead).
    change ((c0 :: r1) ++ c :: x)%list with (c0 :: (r1 ++ c :: x))%list.
    cbv beta iota in Hd |- *. rewrite Hpoint in Hd |- *.
    rewrite (take_digits_app_stop r1 c x Hc).
    destruct (take_digits r1) as [fp r'] eqn:Hfp. simpl fst. simpl snd.
    destruct (take_digits_rest plain_char r1 fp r' Hfp Hr1) as [Hr' Hhead'].
    destruct (ip ++ fp)%list as [|d ds]; [discriminate Hd|].
    destruct r' as [|c1 r''].
    + simpl app. rewrite HE. simpl in Hd. injection Hd as <- <-.
      f_equal. f_equal. lia.
    + exfalso. simpl in Hr'. apply andb_true_iff in Hr' as [Hc1 _].
      destruct (plain_char_facts c1 Hc1) as (_ & _ & _ & _ & _ & _ & He & _).
      unfold exponent in Hd. rewrite He in Hd. discriminate Hd.
Qed.

Lemma string_forall_app f x y :
  string_forall f (x ++ y) = string_forall f x && string_forall f y.
Proof.
  induction x as [|c x IH]; [reflexivity|].
  change (String c x ++ y) with (String c (x ++ y)). simpl.
  rewrite IH, andb_assoc. reflexivity.
Qed.

Lemma digits_are_literal es :
  string_forall is_digit es = true -> string_forall literal_char es = true.
Proof.
  induction es as [|c es IH]; [reflexivity|]. simpl.
  intros [Hc Hs]%andb_true_iff.
  unfold literal_char at 1, plain_char. rewrite Hc, (IH Hs). reflexivity.
Qed.

(** A plain decimal number followed by [e] or [E], an optional sign
    and digits is a float literal: the exponent is added to, or with
    [-] taken from, the number's decimal exponent. *)
Lemma py_float_exponent t v :
  string_forall plain_char t = true -> py_float t = inr v ->
  exists m e10,
    v = float_of_decimal false m e10
    /\ forall mark es,
        mark = "e"%char \/ mark = "E"%char ->
        string_forall is_digit es = true -> es <> "" ->
        let n := decimal_value (list_ascii_of_string es) in
        py_float (t ++ String mark es) = inr (float_of_decimal false m (e10 + n))
        /\ py_float (t ++ String mark (String "+" es))
           = inr (float_of_decimal false m (e10 + n))
        /\ py_float (t ++ String mark (String "-" es))
           = inr (float_of_decimal false m (e10 - n)).
Proof.
  intros Ht Hv.
  assert (Hlit : forall s, string_forall plain_char s = true ->
                           string_forall literal_char s = true).
  { induction s as [|c s IH]; [reflexivity|]. simpl.
    intros [Hc Hs]%andb_true_iff.
    destruct (plain_char_facts c Hc) as (-> & _). apply (IH Hs). }
  assert (Hne : t <> "").
  { intros ->. vm_compute in Hv. discriminate Hv. }
  assert (Hhead : forall y, string_forall plain_char (substring 0 1 (t ++ y)) = true).
  { intros y. destruct t as [|c t]; [contradiction|].
    simpl in Ht. apply andb_true_iff in Ht as [Hc _].
    change (String c t ++ y) with (String c (t ++ y)). simpl.
    destruct (t ++ y); simpl; rewrite Hc; reflexivity. }
  assert (Hhead0 : string_forall plain_char (substring 0 1 t) = true).
  { destruct t as [|c t]; [contradiction|].
    simpl in Ht. apply andb_true_iff in Ht as [Hc _]. simpl.
    destruct t; simpl; rewrite Hc; reflexivity. }
  pose proof (py_float_literal t (Hlit t Ht) Hhead0 Hne) as Hpy.
  rewrite Hv in Hpy.
  destruct (decimal_literal (list_ascii_of_string t)) as [[m e10]|] eqn:Hd;
    [|discriminate Hpy].
  injection Hpy as ->. exists m, e10. split; [reflexivity|].
  intros mark es Hmark Hes Hesne n.
  assert (Hm : Ascii.eqb (tolower mark) "e" = true
               /\ is_digit mark = false /\ Ascii.eqb mark "." = false
               /\ literal_char mark = true)
    by (destruct Hmark as [-> | ->]; repeat split).
  destruct Hm as (Hme & Hmd & Hmp & Hml).
  assert (Hesl : forallb is_digit (list_ascii_of_string es) = true)
    by (rewrite <- string_forall_list; exact Hes).
  assert (Hesn : list_ascii_of_string es <> [])
    by (destruct es; [contradiction | discriminate]).
  destruct (exponent_value mark _ Hme Hesl Hesn) as (E0 & Ep & Em).
  assert (Hbody : forallb plain_char (list_ascii_of_string t) = true)
    by (rewrite <- string_forall_list; exact Ht).
  assert (Hgo : forall sfx E,
             string_forall literal_char sfx = true ->
             exponent (mark :: list_ascii_of_string sfx) = Some E ->
             py_float (t ++ String mark sfx)
             = inr (float_of_decimal false m (e10 + E))).
  { intros sfx E Hsfx HE.
    rewrite py_float_literal.
    - rewrite list_ascii_app. simpl list_ascii_of_string.
      rewrite (decimal_literal_suffix _ m e10 mark _ E Hbody Hd Hmd Hmp HE).
      reflexivity.
    - rewrite string_forall_app. simpl. rewrite (Hlit t Ht), Hml, Hsfx. reflexivity.
    - apply Hhead.
    - destruct t; [contradiction | discriminate]. }
  pose proof (digits_are_literal es Hes) as Hesc.
  subst n. repeat split.
  - apply (Hgo es _ Hesc E0).
  - apply (Hgo (String "+" es)); [|exact Ep]. simpl. exact Hesc.
  - replace (e10 - decimal_value (list_ascii_of_string es))
      with (e10 + - decimal_value (list_ascii_of_string es)) by lia.
    apply (Hgo (String "-" es)); [|exact Em]. simpl. exact Hesc.
Qed.

(** C9. [int] and [float] read more than plain decimal numbers, and
    the loop passes the tokens to them as they are.
    - Whitespace around an integer or float literal changes nothing.
    - A literal that starts with a digit may carry a [+] or [-] in
      front.
    - [nan], [inf] and [infinity], in any letter case and with or
      without a sign, are float literals with a non-finite value.
    - An underscore may stand between any two adjacent digits of an
      integer or float literal; the value is the same.
    - A plain decimal number followed by [e] or [E], an optional sign
      and digits is a float literal, its value the number scaled by
      that power of ten (exponents are a spelling of floats only).
    - Lines spelled with inner whitespace, signs, underscores between
      digits or exponents publish the same reading as the plain line
      [45,12.5,60.2,22.1,71.8].
    - A line with non-finite tokens publishes a reading with NaN and
      infinities, and [get_data] returns it. *)
Theorem lenient_literals_are_published :
  (forall l r t,
      string_forall c_isspace l = true -> string_forall c_isspace r = true ->
      (forall v, py_int t = inr v -> py_int (l ++ t ++ r) = inr v)
      /\ (forall v, py_float t = inr v -> py_float (l ++ t ++ r) = inr v))
  /\ (forall t,
         starts_with_digit t = true ->
         (forall v, py_int t = inr v ->
                    py_int ("+" ++ t) = inr v /\ py_int ("-" ++ t) = inr (- v))
         /\ (forall v, py_float t = inr v ->
                       raised (py_float ("+" ++ t)) = false
                       /\ raised (py_float ("-" ++ t)) = false))
  /\ (forall t sign,
         let word := lower (list_ascii_of_string t) in
         word = "nan" \/ word = "inf" \/ word = "infinity" ->
         sign = "" \/ sign = "+" \/ sign = "-" ->
         exists f, py_float (sign ++ t) = inr f /\ isfinite f = false)
  /\ (forall w,
         let plain :=
           reading (PyInt 45)
             (PyFloat (float_of_decimal false 125 (-1)))
             (PyFloat (float_of_decimal false 602 (-1)))
             (PyFloat (float_of_decimal false 221 (-1)))
             (PyFloat (float_of_decimal false 718 (-1))) in
         latest_data (exec (iteration (line "45,12.5,60.2,22.1,71.8")) w) = plain
         /\ latest_data (exec (iteration (line " 45 , 12.5 ,  60.2, 22.1 ,71.8 ")) w)
            = plain
         /\ latest_data (exec (iteration (line "+45,+12.5,+60.2,+22.1,+71.8")) w)
            = plain
         /\ latest_data (exec (iteration (line "4_5,1_2.5,6_0.2,2_2.1,7_1.8")) w)
            = plain
         /\ latest_data (exec (iteration (line "45,1.25e1,602E-1,0.221e+2,7180e-2")) w)
            = plain)
  /\ (forall w,
         let w' := exec (iteration (line "-45,nan,INF,-Infinity,+NaN")) w in
         let r := reading (PyInt (-45)) (PyFloat S754_nan)
                    (PyFloat (S754_infinity false))
                    (PyFloat (S754_infinity true)) (PyFloat S754_nan) in
         latest_data w' = r /\ result get_data w' = inr r)
  /\ (forall a d1 d2 b,
         is_digit d1 = true -> is_digit d2 = true ->
         (forall v, py_int (a ++ String d1 (String d2 b)) = inr v ->
                    py_int (a ++ String d1 (String "_" (String d2 b))) = inr v)
         /\ (forall v, py_float (a ++ String d1 (String d2 b)) = inr v ->
                       py_float (a ++ String d1 (String "_" (String d2 b))) = inr v))
  /\ (forall t v,
         string_forall plain_char t = true -> py_float t = inr v ->
         exists m e10,
           v = float_of_decimal false m e10
           /\ forall mark es,
               mark = "e"%char \/ mark = "E"%char ->
               string_forall is_digit es = true -> es <> "" ->
               let n := decimal_value (list_ascii_of_string es) in
               py_float (t ++ String mark es)
               = inr (float_of_decimal false m (e10 + n))
               /\ py_float (t ++ String mark (String "+" es))
                  = inr (float_of_decimal false m (e10 + n))
               /\ py_float (t ++ String mark (String "-" es))
                  = inr (float_of_decimal false m (e10 - n))).
Proof.
  split; [|split; [|split; [|split; [|split; [|split]]]]].
  - intros l r t Hl Hr. split; intros v Hv.
    + apply py_int_padding; assumption.
    + apply py_float_padding; assumption.
  - intros t Hd. split; intros v Hv.
    + apply py_int_signed; assumption.
    + apply (py_float_signed t v); assumption.
  - intros t sign word Hw Hs. apply nonfinite_spellings; assumption.
  - intros w plain. subst plain. split; [|split; [|split; [|split]]].
    + apply (line_snapshot w _ "45" "12.5" "60.2" "22.1" "71.8"); by_evaluation.
    + apply (line_snapshot w _ "45 " " 12.5 " "  60.2" " 22.1 " "71.8");
        by_evaluation.
    + apply (line_snapshot w _ "+45" "+12.5" "+60.2" "+22.1" "+71.8");
        by_evaluation.
    + apply (line_snapshot w _ "4_5" "1_2.5" "6_0.2" "2_2.1" "7_1.8");
        by_evaluation.
    + apply (line_snapshot w _ "45" "1.25e1" "602E-1" "0.221e+2" "7180e-2");
        by_evaluation.
  - intros w w' r. subst w' r.
    assert (Hs : latest_data (exec (iteration (line "-45,nan,INF,-Infinity,+NaN")) w)
                 = reading (PyInt (-45)) (PyFloat S754_nan)
                     (PyFloat (S754_infinity false))
                     (PyFloat (S754_infinity true)) (PyFloat S754_nan))
      by (apply (line_snapshot w _ "-45" "nan" "INF" "-Infinity" "+NaN");
          by_evaluation).
    split; [exact Hs|].
    change (result get_data ?x) with (inr (latest_data x) : exn + gmap string pyval).
    rewrite Hs. reflexivity.
  - intros a d1 d2 b H1 H2. split; intros v Hv.
    + apply py_int_underscore; assumption.
    + apply py_float_underscore; assumption.
  - intros t v Ht Hv. apply (py_float_exponent t v Ht Hv).
Qed.

Lemma lenient_literals_are_published_witness :
  (py_int (" " ++ "45" ++ " ") = inr 45
   /\ py_float (" " ++ "12.5" ++ " ") = inr (float_of_decimal false 125 (-1)))
  /\ (py_int ("-" ++ "45") = inr (- 45)
      /\ raised (py_float ("-" ++ "12.5")) = false)
  /\ (exists f, py_float ("-" ++ "NaN") = inr f /\ isfinite f = false)
  /\ (exists f, py_float ("" ++ "iNfInItY") = inr f /\ isfinite f = false)
  /\ (py_int "1_000_000" = inr 1000000
      /\ py_float "1_0.2_5" = inr (float_of_decimal false 1025 (-2)))
  /\ (exists m e10,
        py_float "12.5" = inr (float_of_decimal false m e10)
        /\ py_float "12.5e1000" = inr (float_of_decimal false m (e10 + 1000))
        /\ py_float "12.5E+0010" = inr (float_of_decimal false m (e10 + 10))
        /\ py_float "12.5e-3" = inr (float_of_decimal false m (e10 - 3))).
Proof.
  destruct lenient_literals_are_published
    as (Hpad & Hsign & Hnonfinite & _ & _ & Hunder & Hexp).
  split; [|split; [|split; [|split; [|split]]]].
  - destruct (Hpad " " " " "45" eq_refl eq_refl) as (Hi & _).
    destruct (Hpad " " " " "12.5" eq_refl eq_refl) as (_ & Hf).
    split; [apply Hi | apply Hf]; vm_compute; reflexivity.
  - destruct (Hsign "45" eq_refl) as (Hi & _).
    destruct (Hsign "12.5" eq_refl) as (_ & Hf).
    split.
    + apply (Hi 45). vm_compute. reflexivity.
    + apply (Hf (float_of_decimal false 125 (-1))). vm_compute. reflexivity.
  - apply (Hnonfinite "NaN" "-"); [left; reflexivity | right; right; reflexivity].
  - apply (Hnonfinite "iNfInItY" ""); [right; right; reflexivity | left; reflexivity].
  - split.
    + apply (Hunder "1_00" "0"%char "0"%char "00" eq_refl eq_refl).
      apply (Hunder "" "1"%char "0"%char "00000" eq_refl eq_refl).
      vm_compute. reflexivity.
    + apply (Hunder "1_0." "2"%char "5"%char "" eq_refl eq_refl).
      apply (Hunder "" "1"%char "0"%char ".25" eq_refl eq_refl).
      vm_compute. reflexivity.
  - destruct (Hexp "12.5" (float_of_decimal false 125 (-1)) eq_refl)
      as (m & e10 & Hv & Hall); [vm_compute; reflexivity|].
    exists m, e10. split; [rewrite <- Hv; vm_compute; reflexivity|].
    destruct (Hall "e"%char "1000" (or_introl eq_refl) eq_refl) as (H1 & _ & _);
      [discriminate|].
    destruct (Hall "E"%char "0010" (or_intror eq_refl) eq_refl) as (_ & H2 & _);
      [discriminate|].
    destruct (Hall "e"%char "3" (or_introl eq_refl) eq_refl) as (_ & _ & H3);
      [discriminate|].
    split; [exact H1|]. split; [exact H2 | exact H3].
Defined.
